(** * Electronics Store API: a shallow embedding of [main.py]

    The request handlers of [main.py] are embedded as computations in a
    state-and-exception monad over the module-global [db] handle.  Python
    dictionaries (request bodies, store documents, query filters) are
    finite maps with string keys; the store keeps each collection as the
    list of its documents in insertion order. *)

From Stdlib Require Import QArith Qabs Ascii.
From stdpp Require Import gmap strings list fin_maps sorting.

Local Open Scope string_scope.

(** ** Python values

    The scalar values that occur in request bodies and in stored documents.
    A Python [float] is represented by the rational number it denotes:
    the handlers only copy prices and compare them, and on finite floats
    the comparisons are the rational ones. *)

Inductive value : Type :=
| VNone
| VBool (b : bool)
| VNum (q : Q)
| VStr (s : string).

#[global] Instance Q_eq_dec : EqDecision Q.
Proof. solve_decision. Defined.

#[global] Instance value_eq_dec : EqDecision value.
Proof. solve_decision. Defined.

(** Python truthiness, as tested by [if q:], [if category:] and [if c]. *)
Definition truthy (v : value) : bool :=
  match v with
  | VNone => false
  | VBool b => b
  | VNum q => negb (Qeq_bool q 0)
  | VStr s => negb (String.eqb s "")
  end.

(** Truthiness of an [Optional[str]] query parameter. *)
Definition truthy_str (o : option string) : bool :=
  match o with
  | None => false
  | Some s => negb (String.eqb s "")
  end.

(** *** Numbers as doubles

    A number is a Python [int] or a [float], and a [float] field holds a
    double.  A number that is not an integer is a [float] already and converts
    to itself; an integer converts to the double nearest to it, ties going to
    the even mantissa, which changes it only beyond [2^53].  Magnitudes beyond
    the largest double, infinities and NaN are outside this model. *)

Definition round_int (z : Z) : Z :=
  let a := Z.abs z in
  let e := (Z.log2 a - 52)%Z in
  if (e <=? 0)%Z then z
  else
    let m := (a / 2 ^ e)%Z in
    let r := (a mod 2 ^ e)%Z in
    let half := (2 ^ (e - 1))%Z in
    let m' := if (r <? half)%Z then m
              else if (half <? r)%Z then (m + 1)%Z
              else if Z.even m then m else (m + 1)%Z in
    (Z.sgn z * (m' * 2 ^ e))%Z.

Definition is_integral (q : Q) : bool :=
  Z.eqb (Z.rem (Qnum q) (Zpos (Qden q))) 0.

(** [float(x)] for a number [x]. *)
Definition to_double (q : Q) : Q :=
  if is_integral q then
    let z := Z.quot (Qnum q) (Zpos (Qden q)) in
    if Z.eqb (round_int z) z then q else inject_Z (round_int z)
  else q.

(** The largest double, [(2 - 2^-52) * 2^1023]. *)
Definition double_max : Q := inject_Z (2 ^ 1024 - 2 ^ 971).

Definition in_double_range (q : Q) : bool := Qle_bool (Qabs q) double_max.

(** The double-quote character, which occurs in two of the seed literals. *)
Definition dquote : string := String (ascii_of_nat 34) EmptyString.

(** ** Store identifiers: [bson.ObjectId]

    The identifier that the store assigns is a 12-byte value, here the number
    below [2^96] that the bytes denote; [str(oid)] is its 24-digit lower-case
    hexadecimal form.  [ObjectId(s)] reads a string of 24 characters with
    [bytes.fromhex]. *)

Definition ObjectId := N.

Definition oid_bound : N := 16 ^ 24.

Definition hex_digit (n : N) : ascii :=
  match n with
  | 0 => "0" | 1 => "1" | 2 => "2" | 3 => "3" | 4 => "4" | 5 => "5"
  | 6 => "6" | 7 => "7" | 8 => "8" | 9 => "9" | 10 => "a" | 11 => "b"
  | 12 => "c" | 13 => "d" | 14 => "e" | _ => "f"
  end%N%char.

Definition hex_value (c : ascii) : option N :=
  let n := N_of_ascii c in
  if (48 <=? n)%N && (n <=? 57)%N then Some (n - 48)%N
  else if (97 <=? n)%N && (n <=? 102)%N then Some (n - 87)%N
  else if (65 <=? n)%N && (n <=? 70)%N then Some (n - 55)%N
  else None.

(** [to_hex k n acc] prepends the [k] low hexadecimal digits of [n] to [acc],
    most significant digit first. *)
Fixpoint to_hex (k : nat) (n : N) (acc : string) : string :=
  match k with
  | O => acc
  | S k' => to_hex k' (n / 16)%N (String (hex_digit (n mod 16)%N) acc)
  end.

Fixpoint of_hex (s : string) (acc : N) : option N :=
  match s with
  | EmptyString => Some acc
  | String c s' =>
      match hex_value c with
      | Some d => of_hex s' (16 * acc + d)%N
      | None => None
      end
  end.

(** [str(oid)] *)
Definition ObjectId_str (o : ObjectId) : string := to_hex 24 o EmptyString.

(** ASCII whitespace, which [bytes.fromhex] skips between bytes. *)
Definition is_space (c : ascii) : bool :=
  let n := N_of_ascii c in
  (n =? 32)%N || ((9 <=? n)%N && (n <=? 13)%N).

(** [bytes.fromhex(s)]: two hexadecimal digits per byte, whitespace skipped
    before each byte and at the end; [None] stands for [ValueError]. *)
Fixpoint fromhex (s : string) : option (list N) :=
  match s with
  | EmptyString => Some []
  | String c s' =>
      if is_space c then fromhex s'
      else
        match hex_value c, s' with
        | Some hi, String c2 s'' =>
            match hex_value c2 with
            | Some lo =>
                match fromhex s'' with
                | Some bs => Some ((16 * hi + lo)%N :: bs)
                | None => None
                end
            | None => None
            end
        | _, _ => None
        end
  end.

(** [ObjectId(product_id)], as the binary that the constructed identifier
    holds; [None] stands for the [InvalidId] exception.  A string is accepted
    when it has 24 characters and [bytes.fromhex] reads it: 24 digits give
    12 bytes, and a string with whitespace in it gives fewer.  The length is
    taken in bytes: it differs from the number of characters only for a
    string with a character outside ASCII, and [bytes.fromhex] refuses such
    a string whatever its length. *)
Definition ObjectId_parse (s : string) : option (list N) :=
  if Nat.eqb (String.length s) 24 then fromhex s else None.

(** The number that a sequence of bytes denotes, most significant first. *)
Definition binary_value (bs : list N) : N :=
  fold_left (fun acc b => (256 * acc + b)%N) bs 0%N.

(** Whether the binary [bs] is the one of the stored identifier [o]: it has
    twelve bytes and denotes [o]. *)
Definition binary_is (bs : list N) (o : ObjectId) : bool :=
  Nat.eqb (length bs) 12 && N.eqb (binary_value bs) o.

(** ** Exceptions and the handler monad *)

(** One entry of a pydantic error list: the field and the error type. *)
Definition FieldError : Type := (string * string)%type.

Inductive exn : Type :=
| HTTPException (status_code : nat) (detail : string)
| RequestValidationError (errors : list FieldError)
| ValidationError (errors : list FieldError)
| ResponseValidationError
| PyMongoError
| OperationFailure
| TypeError
| DatabaseNotAvailable.

Inductive outcome (A : Type) : Type :=
| Return (a : A)
| Raise (e : exn).

Arguments Return {A} a.
Arguments Raise {A} e.

(** ** The document store

    A stored document is a dictionary with a store-assigned [_id].  A
    database holds its collections by name, each as the list of its documents
    in insertion order, and the counter from which fresh identifiers are
    drawn.  [server_up] tells whether the server answers: when it does not,
    every driver call raises. *)

Record Document : Type := mkDocument {
  _id : ObjectId;
  fields : gmap string value
}.

Record Database : Type := mkDatabase {
  server_up : bool;
  collections : gmap string (list Document);
  next_oid : ObjectId
}.

(** [db[name]] : a collection that was never written to is empty. *)
Definition collection (d : Database) (name : string) : list Document :=
  default [] (collections d !! name).

(** The module-global [db], which is [None] when no store is configured. *)
Definition World : Type := option Database.

(** Handlers run against the global [db] and may raise. *)
Definition M (A : Type) : Type := World -> outcome A * World.

Definition ret {A} (a : A) : M A := fun w => (Return a, w).

Definition raise {A} (e : exn) : M A := fun w => (Raise e, w).

Definition bind {A B} (m : M A) (k : A -> M B) : M B :=
  fun w =>
    match m w with
    | (Return a, w') => k a w'
    | (Raise e, w') => (Raise e, w')
    end.

(** [try: body except Exception: handler] *)
Definition try_except {A} (body : M A) (handler : exn -> M A) : M A :=
  fun w =>
    match body w with
    | (Return a, w') => (Return a, w')
    | (Raise e, w') => handler e w'
    end.

(** Reads the global [db]. *)
Definition get_db : M World := fun w => (Return w, w).

Declare Scope monad_scope.
Delimit Scope monad_scope with monad.
Notation "x <- m ;; k" := (bind m (fun x => k))
  (at level 90, m at level 80, right associativity) : monad_scope.
Notation "m ;;; k" := (bind m (fun _ => k))
  (at level 90, right associativity) : monad_scope.
Local Open Scope monad_scope.

(** [doc.get(key)] on a stored document; [_id] is the store's own field. *)
Definition doc_get (doc : Document) (key : string) : option value :=
  fields doc !! key.

(** *** Query filters

    A filter is a dictionary from field names to conditions: a plain value
    (equality), an ObjectId (equality on [_id]), or a dictionary of
    operators. *)

Inductive cond : Type :=
| CEq (v : value)
| COid (binary : list N)
| COps (ops : gmap string value).

Definition value_eqb (v w : value) : bool :=
  match v, w with
  | VNone, VNone => true
  | VBool a, VBool b => Bool.eqb a b
  | VNum a, VNum b => Qeq_bool a b
  | VStr a, VStr b => String.eqb a b
  | _, _ => false
  end.

Section Store.

(** The store's regular-expression search: [regex_search pattern options s]
    tells whether [pattern], read with [options], matches somewhere in [s].
    The engine belongs to the store, so it is a parameter here. *)
Variable regex_search : string -> string -> string -> bool.

(** Whether the store's engine accepts a pattern: [regex_valid pattern
    options].  A query that carries a pattern it refuses fails as a whole. *)
Variable regex_valid : string -> string -> bool.

(** One operator of an operator dictionary, on the value of the field
    ([None] when the document lacks the field).  Comparisons hold between
    numbers only, and [$regex] on strings only; [$options] modifies the
    [$regex] beside it and constrains nothing itself. *)
Definition op_holds (ops : gmap string value) (fv : option value)
    (op : string) (arg : value) : bool :=
  if String.eqb op "$gte" then
    match fv, arg with
    | Some (VNum x), VNum a => Qle_bool a x
    | _, _ => false
    end
  else if String.eqb op "$lte" then
    match fv, arg with
    | Some (VNum x), VNum a => Qle_bool x a
    | _, _ => false
    end
  else if String.eqb op "$regex" then
    match fv, arg with
    | Some (VStr s), VStr pat =>
        match ops !! "$options" with
        | Some (VStr o) => regex_search pat o s
        | _ => regex_search pat EmptyString s
        end
    | _, _ => false
    end
  else String.eqb op "$options".

Definition cond_holds (doc : Document) (key : string) (c : cond) : bool :=
  match c with
  | CEq v =>
      match doc_get doc key with
      | Some w => value_eqb w v
      | None => value_eqb VNone v
      end
  | COid bs => String.eqb key "_id" && binary_is bs (_id doc)
  | COps ops =>
      bool_decide (map_Forall (fun op arg => op_holds ops (doc_get doc key) op arg = true) ops)
  end.

(** A document matches a filter when it satisfies the condition of every
    key of the filter; the empty filter matches every document. *)
Definition doc_matches (filt : gmap string cond) (doc : Document) : bool :=
  bool_decide (map_Forall (fun key c => cond_holds doc key c = true) filt).

(** A condition is well formed when its [$regex], if it has one, is a
    pattern that the engine accepts with the [$options] beside it. *)
Definition cond_valid (c : cond) : bool :=
  match c with
  | COps ops =>
      match ops !! "$regex" with
      | Some (VStr pat) =>
          regex_valid pat
            (match ops !! "$options" with Some (VStr o) => o | _ => EmptyString end)
      | _ => true
      end
  | _ => true
  end.

Definition filter_valid (filt : gmap string cond) : bool :=
  bool_decide (map_Forall (fun _ c => cond_valid c = true) filt).

(** *** Driver calls ([pymongo]) on a database handle *)

Definition driver {A} (d : Database) (a : A) : M A :=
  if server_up d then ret a else raise PyMongoError.

(** [db[name].count_documents({})] *)
Definition count_documents (d : Database) (name : string) : M nat :=
  driver d (length (collection d name)).

(** [db[name].find(filt)], in insertion order.  The store refuses a filter
    with a pattern that its engine does not accept, whatever the collection
    holds. *)
Definition find (d : Database) (name : string) (filt : gmap string cond)
    : M (list Document) :=
  if server_up d then
    if filter_valid filt
    then ret (List.filter (doc_matches filt) (collection d name))
    else raise OperationFailure
  else raise PyMongoError.

(** [db[name].find_one(filt)]: the first match, if any.  The handlers call
    it with a condition on [_id] alone, which carries no pattern. *)
Definition find_one (d : Database) (name : string) (filt : gmap string cond)
    : M (option Document) :=
  driver d (List.find (doc_matches filt) (collection d name)).

(** [db[name].distinct(key)]: the values of [key], each once *)
Definition distinct (d : Database) (name : string) (key : string)
    : M (list value) :=
  driver d (remove_dups (omap (fun doc => doc_get doc key) (collection d name))).

(** [db[name].insert_one(data)]: appends the document under a fresh
    identifier and returns that identifier. *)
Definition insert_one (d : Database) (name : string) (data : gmap string value)
    : M ObjectId :=
  if server_up d then
    fun _ =>
      let oid := next_oid d in
      let doc := mkDocument oid data in
      (Return oid,
       Some (mkDatabase (server_up d)
               (<[name := (collection d name ++ [doc])%list]> (collections d))
               (N.succ oid)))
  else raise PyMongoError.

(** Modelled from the spec: [database.py] is not among the sources.
    [create_document(collection, doc)] is the store client's
    [insert(collection, doc) -> id]: it inserts the document and returns the
    newly assigned identifier as a string; without a store connection it
    raises. *)
Definition create_document (collection_name : string) (data : gmap string value)
    : M string :=
  w <- get_db ;;
  match w with
  | None => raise DatabaseNotAvailable
  | Some d => oid <- insert_one d collection_name data ;; ret (ObjectId_str oid)
  end.

(** Modelled from the spec: [database.py] is not among the sources.
    [get_documents(collection, filter)] is the store client's
    [find(collection, filter) -> sequence of doc]. *)
Definition get_documents (collection_name : string) (filt : gmap string cond)
    : M (list Document) :=
  w <- get_db ;;
  match w with
  | None => raise DatabaseNotAvailable
  | Some d => find d collection_name filt
  end.

End Store.

(** ** The pydantic models [ProductIn] and [ProductOut] *)

Record ProductIn : Type := mkProductIn {
  title : string;
  description : option string;
  price : Q;
  category : string;
  in_stock : bool;
  image : option string
}.

(** [class ProductOut(ProductIn)]: the fields of [ProductIn] and [id]. *)
Record ProductOut : Type := mkProductOut {
  id : string;
  product :> ProductIn
}.

(** The outcome of validating one field. *)
Inductive checked (A : Type) : Type :=
| Valid (a : A)
| Invalid (e : FieldError).

Arguments Valid {A} a.
Arguments Invalid {A} e.

Definition errors_of {A} (c : checked A) : list FieldError :=
  match c with
  | Valid _ => []
  | Invalid e => [e]
  end.

(** [name: str = Field(...)]: required, any string. *)
Definition required_str (key : string) (kw : gmap string value) : checked string :=
  match kw !! key with
  | None => Invalid (key, "missing")
  | Some (VStr s) => Valid s
  | Some _ => Invalid (key, "string_type")
  end.

(** [name: Optional[str] = Field(None)] *)
Definition optional_str (key : string) (kw : gmap string value)
    : checked (option string) :=
  match kw !! key with
  | None => Valid None
  | Some VNone => Valid None
  | Some (VStr s) => Valid (Some s)
  | Some _ => Invalid (key, "string_type")
  end.

(** [name: float = Field(..., ge=0)]: a number is converted to a double and
    then compared with the bound. *)
Definition required_float_ge0 (key : string) (kw : gmap string value) : checked Q :=
  match kw !! key with
  | None => Invalid (key, "missing")
  | Some (VNum q) =>
      if Qle_bool 0 (to_double q) then Valid (to_double q)
      else Invalid (key, "greater_than_equal")
  | Some _ => Invalid (key, "float_type")
  end.

(** [name: bool = Field(dflt)] *)
Definition bool_with_default (key : string) (dflt : bool) (kw : gmap string value)
    : checked bool :=
  match kw !! key with
  | None => Valid dflt
  | Some (VBool b) => Valid b
  | Some _ => Invalid (key, "bool_type")
  end.

(** Validation of the keyword arguments (or of the JSON object of a request
    body) against [ProductIn].  Every field is checked and the errors are
    listed in the order in which the class declares its fields.  The model
    covers values of the declared types, missing keys and [None]: a string or
    a boolean given as price, and a number or a string given as [in_stock],
    which pydantic may convert, are outside it.  They are reported here as
    type errors, and the statements below either exclude such bodies or hold
    whatever validation makes of them. *)
Definition ProductIn_validate (kw : gmap string value)
    : list FieldError + ProductIn :=
  let t := required_str "title" kw in
  let d := optional_str "description" kw in
  let p := required_float_ge0 "price" kw in
  let c := required_str "category" kw in
  let s := bool_with_default "in_stock" true kw in
  let i := optional_str "image" kw in
  match t, d, p, c, s, i with
  | Valid t', Valid d', Valid p', Valid c', Valid s', Valid i' =>
      inr (mkProductIn t' d' p' c' s' i')
  | _, _, _, _, _, _ =>
      inl (errors_of t ++ errors_of d ++ errors_of p ++ errors_of c
             ++ errors_of s ++ errors_of i)%list
  end.

Definition opt_value (o : option string) : value :=
  match o with
  | Some s => VStr s
  | None => VNone
  end.

(** [payload.model_dump()] *)
Definition model_dump (p : ProductIn) : gmap string value :=
  {[ "title" := VStr (title p);
     "description" := opt_value (description p);
     "price" := VNum (price p);
     "category" := VStr (category p);
     "in_stock" := VBool (in_stock p);
     "image" := opt_value (image p) ]}.

(** Modelled from the spec: a field that the Product Schema Validator
    confirms to be a non-empty string. *)
Definition nonempty_str (key : string) (kw : gmap string value) : checked string :=
  match kw !! key with
  | None => Invalid (key, "missing")
  | Some (VStr s) =>
      if String.eqb s EmptyString then Invalid (key, "string_too_short") else Valid s
  | Some _ => Invalid (key, "string_type")
  end.

(** Modelled from the spec: [schemas.py], which declares the schema
    [Product] that [create_product] constructs before it inserts, is not
    among the sources.  The Product Schema Validator confirms that [title]
    and [category] are non-empty strings, that [price] is a number no less
    than zero, that [in_stock] is a boolean (true if absent) and that
    [description] and [image] are text or absent; it fails with a validation
    error naming the first offending field.  [ProductSchema_spec kw] lists
    the errors in the order of the fields, so that its first entry names the
    first offending field; the empty list means that the schema accepts. *)
Definition ProductSchema_spec (kw : gmap string value) : list FieldError :=
  (errors_of (nonempty_str "title" kw)
   ++ errors_of (optional_str "description" kw)
   ++ errors_of (required_float_ge0 "price" kw)
   ++ errors_of (nonempty_str "category" kw)
   ++ errors_of (bool_with_default "in_stock" true kw)
   ++ errors_of (optional_str "image" kw))%list.

(** [ProductOut(id=..., **kw)] *)
Definition ProductOut_new (id : string) (kw : gmap string value) : M ProductOut :=
  match ProductIn_validate kw with
  | inl errs => raise (ValidationError errs)
  | inr p => ret (mkProductOut id p)
  end.

(** ** Responses

    What the framework sends for the outcome of a handler: the returned
    value with status 200, the status and detail of an [HTTPException], 422
    with the list of field errors when the request did not validate, and 500
    for any other exception. *)

Inductive detail : Type :=
| DetailText (s : string)
| DetailFields (errors : list FieldError).

Inductive Response (A : Type) : Type :=
| Success (content : A)
| Failure (status_code : nat) (d : detail).

Arguments Success {A} content.
Arguments Failure {A} status_code d.

Definition status {A} (r : Response A) : nat :=
  match r with
  | Success _ => 200
  | Failure s _ => s
  end.

Definition respond {A} (o : outcome A) : Response A :=
  match o with
  | Return a => Success a
  | Raise (HTTPException s d) => Failure s (DetailText d)
  | Raise (RequestValidationError errs) => Failure 422 (DetailFields errs)
  | Raise _ => Failure 500 (DetailText "Internal Server Error")
  end.

(** A request against the store [w]: the response and the store afterwards. *)
Definition request {A} (handler : M A) (w : World) : Response A * World :=
  let (o, w') := handler w in (respond o, w').

Fixpoint mapM {A B} (f : A -> M B) (l : list A) : M (list B) :=
  match l with
  | [] => ret []
  | x :: l' => y <- f x ;; ys <- mapM f l' ;; ret (y :: ys)
  end.

(** [for x in l: f(x)] *)
Fixpoint for_each {A} (l : list A) (f : A -> M unit) : M unit :=
  match l with
  | [] => ret tt
  | x :: l' => f x ;;; for_each l' f
  end.

(** ** The handlers of [main.py] *)

(** The keyword arguments that [serialize_product] passes on: every field
    is read with [doc.get], which gives [None] for a missing key, and
    [in_stock] with the default [True]. *)
Definition product_kwargs (doc : Document) : gmap string value :=
  {[ "title" := default VNone (doc_get doc "title");
     "description" := default VNone (doc_get doc "description");
     "price" := default VNone (doc_get doc "price");
     "category" := default VNone (doc_get doc "category");
     "in_stock" := default (VBool true) (doc_get doc "in_stock");
     "image" := default VNone (doc_get doc "image") ]}.

(** [serialize_product(doc)] *)
Definition serialize_product (doc : Document) : M ProductOut :=
  ProductOut_new (ObjectId_str (_id doc)) (product_kwargs doc).

(** The four literal sample products of [seed_products]. *)
Definition samples : list (gmap string value) :=
  [ {[ "title" := VStr "Smartphone X200";
       "description" := VStr ("6.5" ++ dquote ++ " OLED, 128GB, Dual Camera");
       "price" := VNum 699;
       "category" := VStr "Phones";
       "in_stock" := VBool true;
       "image" := VStr "https://images.unsplash.com/photo-1511707171634-5f897ff02aa9?q=80&w=800&auto=format&fit=crop" ]};
    {[ "title" := VStr "Noise-Canceling Headphones";
       "description" := VStr "Over-ear, 30h battery, Bluetooth 5.2";
       "price" := VNum 199;
       "category" := VStr "Audio";
       "in_stock" := VBool true;
       "image" := VStr "https://images.unsplash.com/photo-1518441902119-52ab42fb52fb?q=80&w=800&auto=format&fit=crop" ]};
    {[ "title" := VStr ("4K Ultra HD TV 55" ++ dquote);
       "description" := VStr "55-inch, HDR10+, Smart TV";
       "price" := VNum 499;
       "category" := VStr "TVs";
       "in_stock" := VBool true;
       "image" := VStr "https://images.unsplash.com/photo-1593359677879-74010a5d13b6?q=80&w=800&auto=format&fit=crop" ]};
    {[ "title" := VStr "Gaming Laptop G15";
       "description" := VStr "RTX 4060, 16GB RAM, 1TB SSD";
       "price" := VNum 1499;
       "category" := VStr "Computers";
       "in_stock" := VBool true;
       "image" := VStr "https://images.unsplash.com/photo-1517336714731-489689fd1ca8?q=80&w=800&auto=format&fit=crop" ]} ].

(** The filter that [list_products] builds from its query parameters. *)
Definition list_products_filter (q category : option string)
    (min_price max_price : option Q) : gmap string cond :=
  let filt : gmap string cond := ∅ in
  let filt :=
    match q with
    | Some pat =>
        if truthy (VStr pat)
        then <["title" := COps {[ "$regex" := VStr pat; "$options" := VStr "i" ]}]> filt
        else filt
    | None => filt
    end in
  let filt :=
    match category with
    | Some c => if truthy (VStr c) then <["category" := CEq (VStr c)]> filt else filt
    | None => filt
    end in
  let filt :=
    if bool_decide (is_Some min_price) || bool_decide (is_Some max_price) then
      let price : gmap string value := ∅ in
      let price :=
        match min_price with
        | Some lo => <["$gte" := VNum lo]> price
        | None => price
        end in
      let price :=
        match max_price with
        | Some hi => <["$lte" := VNum hi]> price
        | None => price
        end in
      <["price" := COps price]> filt
    else filt in
  filt.

Definition string_le (a b : string) : Prop := String.leb a b = true.

#[global] Instance string_le_dec : RelDecision string_le.
Proof. intros a b. unfold string_le. apply _. Defined.

Definition as_str (v : value) : option string :=
  match v with
  | VStr s => Some s
  | _ => None
  end.

Definition is_str (v : value) : bool :=
  match v with
  | VStr _ => true
  | _ => false
  end.

(** [sorted(cs)] as a response of type [List[str]].  Strings sort in
    ascending order of their characters' codes.  When strings and other
    values are mixed the comparison raises; values of which none is a string
    sort, and the response fails to validate. *)
Definition sorted_strs (cs : list value) : M (list string) :=
  if forallb is_str cs then ret (merge_sort string_le (omap as_str cs))
  else if existsb is_str cs then raise TypeError
  else raise ResponseValidationError.

Section Handlers.

Variable regex_search : string -> string -> string -> bool.
Variable regex_valid : string -> string -> bool.

(** [schemas.py] is not among the sources.  [ProductSchema kw] stands for
    the errors that constructing [ProductSchema] from the keyword arguments [kw] reports; the empty
    list means that it accepts. *)
Variable ProductSchema : gmap string value -> list FieldError.

Definition ProductSchema_new (kw : gmap string value) : M unit :=
  match ProductSchema kw with
  | [] => ret tt
  | errs => raise (ValidationError errs)
  end.

(** [seed_products()] *)
Definition seed_products : M unit :=
  w <- get_db ;;
  match w with
  | None => ret tt
  | Some d =>
      try_except
        (count <- count_documents d "product" ;;
         if Nat.eqb count 0
         then for_each samples (fun s => create_document "product" s ;;; ret tt)
         else ret tt)
        (fun _ => ret tt)
  end.

(** [list_products(q, category, min_price, max_price)] *)
Definition list_products (q category : option string)
    (min_price max_price : option Q) : M (list ProductOut) :=
  w <- get_db ;;
  match w with
  | None => ret []
  | Some _ =>
      let filt := list_products_filter q category min_price max_price in
      docs <- get_documents regex_search regex_valid "product" filt ;;
      mapM serialize_product docs
  end.

(** [get_product(product_id)].  [find_one] returns a document or [None];
    a document carries its [_id], so it is never an empty dictionary and
    [not doc] holds for [None] alone. *)
Definition get_product (product_id : string) : M ProductOut :=
  w <- get_db ;;
  match w with
  | None => raise (HTTPException 503 "Database unavailable")
  | Some d =>
      match ObjectId_parse product_id with
      | None => raise (HTTPException 400 "Invalid product id")
      | Some oid =>
          doc <- find_one regex_search d "product" {[ "_id" := COid oid ]} ;;
          match doc with
          | None => raise (HTTPException 404 "Product not found")
          | Some doc => serialize_product doc
          end
      end
  end.

(** The body of [create_product(payload)]. *)
Definition create_product (payload : ProductIn) : M string :=
  ProductSchema_new (model_dump payload) ;;;
  inserted_id <- create_document "product" (model_dump payload) ;;
  ret inserted_id.

(** [POST /api/products]: the framework validates the request body against
    [ProductIn] before it calls the handler. *)
Definition post_product (body : gmap string value) : M string :=
  match ProductIn_validate body with
  | inl errs => raise (RequestValidationError errs)
  | inr payload => create_product payload
  end.

(** [list_categories()] *)
Definition list_categories : M (list string) :=
  w <- get_db ;;
  match w with
  | None => ret []
  | Some d =>
      cats <- distinct d "product" "category" ;;
      sorted_strs (List.filter truthy cats)
  end.

End Handlers.

(** ** Store invariants

    The product collection holds documents of the product shape: [title] and
    [category] are strings, [price] is a number that is not negative,
    [in_stock] is a boolean or absent, [description] and [image] are strings,
    [None] or absent. *)

Definition text_or_absent (o : option value) : bool :=
  match o with
  | None => true
  | Some VNone => true
  | Some (VStr _) => true
  | Some _ => false
  end.

Definition product_shaped (doc : Document) : bool :=
  match doc_get doc "title" with Some (VStr _) => true | _ => false end
  && text_or_absent (doc_get doc "description")
  && match doc_get doc "price" with Some (VNum q) => Qle_bool 0 q | _ => false end
  && match doc_get doc "category" with Some (VStr _) => true | _ => false end
  && match doc_get doc "in_stock" with None => true | Some (VBool _) => true | _ => false end
  && text_or_absent (doc_get doc "image").

Definition products_shaped (d : Database) : bool :=
  forallb product_shaped (collection d "product").

(** A number that the conversion to a double leaves as it is. *)
Definition is_double (q : Q) : bool :=
  if is_integral q
  then let z := Z.quot (Qnum q) (Zpos (Qden q)) in Z.eqb (round_int z) z
  else true.

(** The prices that the product collection holds are doubles. *)
Definition prices_are_doubles (d : Database) : bool :=
  forallb (fun doc =>
             match doc_get doc "price" with
             | Some (VNum q) => is_double q
             | _ => true
             end)
    (collection d "product").

(** Identifiers are drawn from a counter: the stored ones lie below it, and
    the counter has not run through the twelve bytes of an identifier. *)
Definition ids_below (d : Database) : bool :=
  forallb (fun doc => N.ltb (_id doc) (next_oid d)) (collection d "product").

Definition ids_fresh (d : Database) : bool :=
  ids_below d && N.ltb (next_oid d) oid_bound.

(** ** Readings of the filter

    What each condition of the filter of [list_products] says about one
    document, and the filter as the specification words it. *)

Definition title_matches (regex_search : string -> string -> string -> bool)
    (pattern : string) (doc : Document) : bool :=
  match doc_get doc "title" with
  | Some (VStr s) => regex_search pattern "i" s
  | _ => false
  end.

Definition category_is (c : string) (doc : Document) : bool :=
  match doc_get doc "category" with
  | Some v => value_eqb v (VStr c)
  | None => false
  end.

Definition price_at_least (lo : Q) (doc : Document) : bool :=
  match doc_get doc "price" with
  | Some (VNum x) => Qle_bool lo x
  | _ => false
  end.

Definition price_at_most (hi : Q) (doc : Document) : bool :=
  match doc_get doc "price" with
  | Some (VNum x) => Qle_bool x hi
  | _ => false
  end.

(** The pattern of [q], when [q] is given and not empty, is one that the
    store's engine accepts. *)
Definition pattern_accepted (regex_valid : string -> string -> bool)
    (q : option string) : bool :=
  if truthy_str q then regex_valid (default EmptyString q) "i" else true.

(** Case-insensitive containment of [needle] in [hay]. *)
Definition lower_char (c : ascii) : ascii :=
  let n := nat_of_ascii c in
  if Nat.leb 65 n && Nat.leb n 90 then ascii_of_nat (n + 32) else c.

Fixpoint lower (s : string) : string :=
  match s with
  | EmptyString => EmptyString
  | String c s' => String (lower_char c) (lower s')
  end.

Definition contains_ci (needle hay : string) : bool :=
  match String.index 0 (lower needle) (lower hay) with
  | Some _ => true
  | None => false
  end.

(** A search engine that reads every pattern literally and ignores case. *)
Definition substring_search (pattern options s : string) : bool :=
  contains_ci pattern s.

(** That engine accepts every pattern. *)
Definition substring_valid (pattern options : string) : bool := true.

(** An engine that refuses the pattern [+], a quantifier with nothing to
    repeat, and accepts every other pattern. *)
Definition refuses_plus (pattern options : string) : bool :=
  negb (String.eqb pattern "+").

(** The filter in the words of the specification: a parameter constrains as
    soon as it is present. *)
Definition described_filter (q category : option string)
    (min_price max_price : option Q) (doc : Document) : bool :=
  match q with
  | Some t =>
      match doc_get doc "title" with
      | Some (VStr s) => contains_ci t s
      | _ => false
      end
  | None => true
  end
  && match category with
     | Some c => category_is c doc
     | None => true
     end
  && match min_price with
     | Some lo => price_at_least lo doc
     | None => true
     end
  && match max_price with
     | Some hi => price_at_most hi doc
     | None => true
     end.

(** ** Shapes of values *)

Definition bool_or_absent (o : option value) : bool :=
  match o with
  | None => true
  | Some (VBool _) => true
  | Some _ => false
  end.

Definition is_text (o : option value) : bool :=
  match o with
  | Some (VStr _) => true
  | _ => false
  end.

Definition text_of (o : option value) : option string :=
  match o with
  | Some (VStr s) => Some s
  | _ => None
  end.

(** A price that validation takes as a number: a number within the range
    of a double, [None] or nothing at all.  A string or a boolean, which
    pydantic may convert, is not. *)
Definition plain_price (o : option value) : bool :=
  match o with
  | Some (VStr _) => false
  | Some (VBool _) => false
  | Some (VNum q) => in_double_range q
  | _ => true
  end.

(** An [in_stock] that validation takes as it is: a boolean, [None] or
    nothing at all.  A number or a string, which pydantic may convert, is
    not. *)
Definition plain_in_stock (o : option value) : bool :=
  match o with
  | Some (VNum _) => false
  | Some (VStr _) => false
  | _ => true
  end.

Definition plain_body (body : gmap string value) : bool :=
  plain_price (body !! "price") && plain_in_stock (body !! "in_stock").

(** Every category that is present and truthy is a string. *)
Definition categories_are_text (d : Database) : bool :=
  forallb (fun doc =>
             match doc_get doc "category" with
             | Some v => is_str v || negb (truthy v)
             | None => true
             end)
    (collection d "product").

(** ** Sample data *)

Definition accept_all (kw : gmap string value) : list FieldError := [].

Definition empty_store : Database := mkDatabase true ∅ 0%N.

Definition unreachable_store : Database := mkDatabase false ∅ 0%N.

Definition earbuds_body : gmap string value :=
  {[ "title" := VStr "Earbuds"; "price" := VNum (4999 # 100); "category" := VStr "Audio" ]}.

Definition earbuds : ProductIn :=
  mkProductIn "Earbuds" None (4999 # 100) "Audio" true None.

(** A body whose price, 2^53 + 1, is an integer that no double holds. *)
Definition odd_price_body : gmap string value :=
  {[ "title" := VStr "Earbuds"; "price" := VNum 9007199254740993;
     "category" := VStr "Audio" ]}.

Definition negative_price_body : gmap string value :=
  {[ "title" := VStr "Earbuds"; "price" := VNum (-1); "category" := VStr "Audio" ]}.

Definition blank_body : gmap string value :=
  {[ "title" := VStr EmptyString; "price" := VNum 1; "category" := VStr EmptyString ]}.


Definition headphones : Document :=
  mkDocument 1%N
    {[ "title" := VStr "Noise-Canceling Headphones";
       "description" := VStr "Over-ear, 30h battery, Bluetooth 5.2";
       "price" := VNum 199;
       "category" := VStr "Audio";
       "in_stock" := VBool true;
       "image" := VNone ]}.

Definition one_product_store : Database :=
  mkDatabase true {[ "product" := [headphones] ]} 2%N.

Definition two_category_store : Database :=
  mkDatabase true
    {[ "product" :=
         [ mkDocument 0%N {[ "title" := VStr "TV"; "price" := VNum 499; "category" := VStr "TVs" ]};
           headphones;
           mkDocument 2%N {[ "title" := VStr "Buds"; "price" := VNum 49; "category" := VStr "Audio" ]};
           mkDocument 3%N {[ "title" := VStr "Misc"; "price" := VNum 1; "category" := VStr EmptyString ]} ] ]}
    4%N.

(** The sample products as validated products. *)
Definition sample_products : list ProductIn :=
  [ mkProductIn "Smartphone X200"
      (Some ("6.5" ++ dquote ++ " OLED, 128GB, Dual Camera")) 699 "Phones" true
      (Some "https://images.unsplash.com/photo-1511707171634-5f897ff02aa9?q=80&w=800&auto=format&fit=crop");
    mkProductIn "Noise-Canceling Headphones"
      (Some "Over-ear, 30h battery, Bluetooth 5.2") 199 "Audio" true
      (Some "https://images.unsplash.com/photo-1518441902119-52ab42fb52fb?q=80&w=800&auto=format&fit=crop");
    mkProductIn ("4K Ultra HD TV 55" ++ dquote)
      (Some "55-inch, HDR10+, Smart TV") 499 "TVs" true
      (Some "https://images.unsplash.com/photo-1593359677879-74010a5d13b6?q=80&w=800&auto=format&fit=crop");
    mkProductIn "Gaming Laptop G15"
      (Some "RTX 4060, 16GB RAM, 1TB SSD") 1499 "Computers" true
      (Some "https://images.unsplash.com/photo-1517336714731-489689fd1ca8?q=80&w=800&auto=format&fit=crop") ].

(** The documents and the products that seeding yields when the identifier
    counter stands at [n]. *)
Definition seeded_documents (n : ObjectId) : list Document :=
  imap (fun i s => mkDocument (n + N.of_nat i)%N s) samples.

Definition seeded_products (n : ObjectId) : list ProductOut :=
  imap (fun i p => mkProductOut (ObjectId_str (n + N.of_nat i)%N) p) sample_products.

(** ** Products of stored documents

    The product that a document of the product shape serializes to, and the
    filter of [list_products] read on a product. *)

Definition to_product (doc : Document) : ProductOut :=
  mkProductOut (ObjectId_str (_id doc))
    (mkProductIn
       (default EmptyString (text_of (doc_get doc "title")))
       (text_of (doc_get doc "description"))
       (match doc_get doc "price" with Some (VNum q) => to_double q | _ => 0 end)
       (default EmptyString (text_of (doc_get doc "category")))
       (match doc_get doc "in_stock" with Some (VBool b) => b | _ => true end)
       (text_of (doc_get doc "image"))).

Definition product_matches (regex_search : string -> string -> string -> bool)
    (q cat : option string) (min_price max_price : option Q)
    (p : ProductOut) : bool :=
  (if truthy_str q then regex_search (default EmptyString q) "i" (title p) else true)
  && (if truthy_str cat
      then String.eqb (category p) (default EmptyString cat) else true)
  && from_option (fun lo => Qle_bool lo (price p)) true min_price
  && from_option (fun hi => Qle_bool (price p) hi) true max_price.

(** A document that [ProductOut] refuses: its title or its category is
    missing or not a string, or its price is missing, [None] or a number
    below zero. *)
Definition unserializable (doc : Document) : bool :=
  negb (is_text (doc_get doc "title"))
  || negb (is_text (doc_get doc "category"))
  || match doc_get doc "price" with
     | None => true
     | Some VNone => true
     | Some (VNum q) => negb (Qle_bool 0 q)
     | Some _ => false
     end.

(** The identifiers of the product collection are pairwise distinct. *)
Definition ids_distinct (d : Database) : Prop :=
  NoDup (map _id (collection d "product")).

(** ** Characters of a string

    A byte of the form 10xxxxxx continues the character that the bytes
    before it began. *)

Definition is_continuation (c : ascii) : bool :=
  let n := N_of_ascii c in (128 <=? n)%N && (n <? 192)%N.

(** The number of characters of a string. *)
Fixpoint utf8_length (s : string) : nat :=
  match s with
  | EmptyString => 0
  | String c s' => if is_continuation c then utf8_length s' else S (utf8_length s')
  end.

(** [s[:n]]: the first [n] characters of [s]. *)
Fixpoint utf8_take (n : nat) (s : string) : string :=
  match s with
  | EmptyString => EmptyString
  | String c s' =>
      if is_continuation c then String c (utf8_take n s')
      else
        match n with
        | O => EmptyString
        | S n' => String c (utf8_take n' s')
        end
  end.

(** ** The diagnostic endpoint [test_database]

    The handler fills a response dictionary key by key.  What it has
    assigned stays assigned when an exception is caught, so the dictionary
    is threaded through the computation beside the store. *)

Inductive diag_value : Type :=
| DNone
| DStr (s : string)
| DList (l : list string).

Definition T (A : Type) : Type :=
  gmap string diag_value -> World -> outcome A * gmap string diag_value * World.

Definition t_ret {A} (a : A) : T A := fun r w => (Return a, r, w).

Definition t_bind {A B} (m : T A) (k : A -> T B) : T B :=
  fun r w =>
    match m r w with
    | (Return a, r', w') => k a r' w'
    | (Raise e, r', w') => (Raise e, r', w')
    end.

Definition t_try {A} (body : T A) (handler : exn -> T A) : T A :=
  fun r w =>
    match body r w with
    | (Return a, r', w') => (Return a, r', w')
    | (Raise e, r', w') => handler e r' w'
    end.

(** [response[key] = v] *)
Definition set_item (key : string) (v : diag_value) : T unit :=
  fun r w => (Return tt, <[key := v]> r, w).

(** A call of the store inside the handler. *)
Definition t_call {A} (m : M A) : T A :=
  fun r w => let (o, w') := m w in (o, r, w').

Notation "m ;;> k" := (t_bind m (fun _ => k))
  (at level 90, right associativity) : monad_scope.

(** [db.list_collection_names()]: the names of the collections that exist. *)
Definition list_collection_names (d : Database) : M (list string) :=
  driver d (map fst (map_to_list (collections d))).

Section Diagnostics.

(** [os.environ], the text [str(e)] of an exception and the name that the
    database handle carries belong to the process and to the driver. *)
Variable environ : gmap string string.
Variable exn_str : exn -> string.
Variable db_name : string.

(** [os.getenv(name)] *)
Definition getenv (name : string) : option string := environ !! name.

(** [str(e)[:50]].  A string is held as the bytes of its UTF-8 encoding,
    and the slice keeps 50 characters, not 50 bytes. *)
Definition first_50 (e : exn) : string := utf8_take 50 (exn_str e).

Definition initial_response : gmap string diag_value :=
  {[ "backend" := DStr "✅ Running";
     "database" := DStr "❌ Not Available";
     "database_url" := DNone;
     "database_name" := DNone;
     "connection_status" := DStr "Not Connected";
     "collections" := DList [] ]}.

(** [test_database()] *)
Definition test_database : M (gmap string diag_value) :=
  fun w =>
    let '(_, response, w') :=
      (t_try
         (fun r w0 =>
            match w0 with
            | Some d =>
                (set_item "database" (DStr "✅ Available") ;;>
                 set_item "database_url" (DStr "✅ Configured") ;;>
                 set_item "database_name" (DStr db_name) ;;>
                 set_item "connection_status" (DStr "Connected") ;;>
                 t_try
                   (t_bind (t_call (list_collection_names d)) (fun collections =>
                    set_item "collections" (DList (take 10 collections)) ;;>
                    set_item "database" (DStr "✅ Connected & Working")))
                   (fun e =>
                      set_item "database"
                        (DStr ("⚠️  Connected but Error: " ++ first_50 e)))) r w0
            | None =>
                set_item "database" (DStr "⚠️  Available but not initialized") r w0
            end)
         (fun e => set_item "database" (DStr ("❌ Error: " ++ first_50 e))) ;;>
       set_item "database_url"
         (DStr (if truthy_str (getenv "DATABASE_URL") then "✅ Set" else "❌ Not Set")) ;;>
       set_item "database_name"
         (DStr (if truthy_str (getenv "DATABASE_NAME") then "✅ Set" else "❌ Not Set")))
        initial_response w in
    (Return response, w').

End Diagnostics.

(** ** More sample data *)

Definition untitled_document : Document :=
  mkDocument 5%N {[ "price" := VNum 10; "category" := VStr "Audio" ]}.

Definition broken_store : Database :=
  mkDatabase true {[ "product" := [headphones; untitled_document] ]} 6%N.

(** A store that holds the headphones and does not answer. *)
Definition silent_store : Database :=
  mkDatabase false {[ "product" := [headphones] ]} 2%N.

Definition reject_all (kw : gmap string value) : list FieldError :=
  [("title", "value_error")].

Definition numbered_document : Document :=
  mkDocument 7%N {[ "title" := VStr "Cable"; "price" := VNum 5; "category" := VNum 3 ]}.

Definition numbered_store : Database :=
  mkDatabase true {[ "product" := [headphones; numbered_document] ]} 8%N.

(** * Properties *)

(** ** Identifiers: printing then parsing *)

Lemma hex_value_digit (n : N) :
  (n < 16)%N -> hex_value (hex_digit n) = Some n.
Proof.
  intros Hn.
  assert (Hcases : In n (map N.of_nat (seq 0 16))).
  { apply in_map_iff. exists (N.to_nat n). split; [lia|]. apply in_seq. lia. }
  simpl in Hcases.
  repeat (destruct Hcases as [<-|Hcases]; [reflexivity|]).
  destruct Hcases.
Qed.

Lemma length_to_hex (k : nat) (n : N) (acc : string) :
  String.length (to_hex k n acc) = (k + String.length acc)%nat.
Proof.
  revert n acc. induction k as [|k IH]; intros n acc; simpl; [reflexivity|].
  rewrite IH. simpl. lia.
Qed.

Lemma of_hex_to_hex (k : nat) (n : N) (acc : string) (a : N) :
  (n < 16 ^ N.of_nat k)%N ->
  of_hex (to_hex k n acc) a = of_hex acc (a * 16 ^ N.of_nat k + n)%N.
Proof.
  revert n acc a. induction k as [|k IH]; intros n acc a Hn.
  - cbn [to_hex]. change (16 ^ N.of_nat 0)%N with 1%N in *.
    replace (a * 1 + n)%N with a by lia. reflexivity.
  - rewrite Nat2N.inj_succ, N.pow_succ_r' in Hn.
    cbn [to_hex]. rewrite IH.
    + cbn [of_hex]. rewrite hex_value_digit by (apply N.mod_lt; lia).
      f_equal. rewrite Nat2N.inj_succ, N.pow_succ_r'.
      pose proof (N.div_mod n 16 ltac:(lia)). lia.
    + apply N.Div0.div_lt_upper_bound. lia.
Qed.

Lemma hex_value_not_space (c : ascii) (d : N) :
  hex_value c = Some d -> is_space c = false.
Proof.
  unfold hex_value, is_space. set (n := N_of_ascii c).
  destruct (N.leb_spec 48 n), (N.leb_spec n 57); simpl;
    [intros _; destruct (N.eqb_spec n 32), (N.leb_spec 9 n), (N.leb_spec n 13);
       simpl; reflexivity || lia|..];
    (destruct (N.leb_spec 97 n), (N.leb_spec n 102); simpl;
       [intros _; destruct (N.eqb_spec n 32), (N.leb_spec 9 n), (N.leb_spec n 13);
          simpl; reflexivity || lia|..];
       (destruct (N.leb_spec 65 n), (N.leb_spec n 70); simpl;
          [intros _; destruct (N.eqb_spec n 32), (N.leb_spec 9 n), (N.leb_spec n 13);
             simpl; reflexivity || lia|..]; discriminate)).
Qed.

(** On a string of hexadecimal digits alone, [bytes.fromhex] reads one byte
    per pair of digits, and the bytes denote the number that the digits do. *)
Lemma fromhex_of_hex (n : nat) (s : string) (a v : N) :
  String.length s = (2 * n)%nat ->
  of_hex s a = Some v ->
  exists bs : list N,
    fromhex s = Some bs /\ length bs = n /\
    fold_left (fun acc b => (256 * acc + b)%N) bs a = v.
Proof.
  revert s a v. induction n as [|n IH]; intros s a v Hlen Hv.
  - destruct s; [|simpl in Hlen; lia]. simpl in Hv. injection Hv as <-.
    exists []. auto.
  - destruct s as [|c1 [|c2 s]]; simpl in Hlen; try lia.
    assert (Hlen' : String.length s = (2 * n)%nat) by lia.
    cbn [of_hex] in Hv.
    destruct (hex_value c1) as [hi|] eqn:H1; [|discriminate].
    destruct (hex_value c2) as [lo|] eqn:H2; [|discriminate].
    destruct (IH s _ v Hlen' Hv) as (bs & Hbs & Hl & Hfold).
    exists ((16 * hi + lo)%N :: bs). split; [|split].
    + cbn [fromhex]. rewrite (hex_value_not_space c1 hi H1), H1, H2, Hbs. reflexivity.
    + simpl. lia.
    + simpl. rewrite <- Hfold. f_equal. lia.
Qed.

(** The string form of a stored identifier parses to the binary of that
    identifier. *)
Lemma ObjectId_parse_str (o : ObjectId) :
  (o < oid_bound)%N ->
  exists bs : list N,
    ObjectId_parse (ObjectId_str o) = Some bs /\
    length bs = 12 /\ binary_value bs = o.
Proof.
  intros Ho. unfold ObjectId_parse, ObjectId_str, binary_value.
  rewrite length_to_hex. simpl Nat.eqb. cbv iota.
  apply (fromhex_of_hex 12).
  - rewrite length_to_hex. reflexivity.
  - rewrite of_hex_to_hex by exact Ho. reflexivity.
Qed.

Lemma binary_is_eqb (bs : list N) (o x : ObjectId) :
  length bs = 12 -> binary_value bs = o -> binary_is bs x = N.eqb x o.
Proof.
  intros Hl Hv. unfold binary_is. rewrite Hl, Hv. simpl. apply N.eqb_sym.
Qed.

(** ** Numbers as doubles *)

Lemma round_int_shape (z : Z) :
  (0 < Z.log2 (Z.abs z) - 52)%Z ->
  exists m e : Z,
    (0 < e)%Z /\ (2 ^ 52 <= m <= 2 ^ 53)%Z /\
    round_int z = (Z.sgn z * (m * 2 ^ e))%Z.
Proof.
  intros He. unfold round_int.
  set (a := Z.abs z) in *. set (e := (Z.log2 a - 52)%Z) in *.
  destruct (Z.leb_spec e 0) as [H|_]; [lia|].
  assert (Ha : (0 < a)%Z).
  { destruct (Z.lt_ge_cases 0 a) as [Hlt|Hle]; [exact Hlt|].
    pose proof (Z.log2_nonpos a Hle). unfold e in *. lia. }
  pose proof (Z.log2_spec a Ha) as [Hlo Hhi].
  assert (Hl : Z.log2 a = (52 + e)%Z) by (unfold e; lia).
  rewrite Hl in Hlo, Hhi.
  replace (Z.succ (52 + e)) with (53 + e)%Z in Hhi by lia.
  rewrite Z.pow_add_r in Hlo, Hhi by lia.
  assert (Hp : (0 < 2 ^ e)%Z) by (apply Z.pow_pos_nonneg; lia).
  assert (Hm1 : (2 ^ 52 <= a / 2 ^ e)%Z) by (apply Z.div_le_lower_bound; lia).
  assert (Hm2 : (a / 2 ^ e < 2 ^ 53)%Z) by (apply Z.div_lt_upper_bound; lia).
  exists (if (a mod 2 ^ e <? 2 ^ (e - 1))%Z then (a / 2 ^ e)%Z
          else if (2 ^ (e - 1) <? a mod 2 ^ e)%Z then (a / 2 ^ e + 1)%Z
          else if Z.even (a / 2 ^ e) then (a / 2 ^ e)%Z else (a / 2 ^ e + 1)%Z), e.
  split; [lia|]. split; [|reflexivity].
  destruct (a mod 2 ^ e <? 2 ^ (e - 1))%Z; [lia|].
  destruct (2 ^ (e - 1) <? a mod 2 ^ e)%Z; [lia|].
  destruct (Z.even (a / 2 ^ e)); lia.
Qed.

Lemma round_int_small (z : Z) :
  (Z.log2 (Z.abs z) - 52 <= 0)%Z -> round_int z = z.
Proof.
  intros H. unfold round_int.
  destruct (Z.leb_spec (Z.log2 (Z.abs z) - 52) 0); [reflexivity|lia].
Qed.

Lemma round_int_sgn (z : Z) : Z.sgn (round_int z) = Z.sgn z.
Proof.
  destruct (Z.le_gt_cases (Z.log2 (Z.abs z) - 52) 0) as [H|H].
  - rewrite round_int_small by exact H. reflexivity.
  - destruct (round_int_shape z ltac:(lia)) as (m & e & He & Hm & ->).
    assert ((0 < m * 2 ^ e)%Z)
      by (apply Z.mul_pos_pos; [lia|apply Z.pow_pos_nonneg; lia]).
    rewrite Z.sgn_mul. rewrite (Z.sgn_pos (m * 2 ^ e)) by lia.
    rewrite Z.sgn_sgn. lia.
Qed.

Lemma round_int_idem (z : Z) : round_int (round_int z) = round_int z.
Proof.
  destruct (Z.le_gt_cases (Z.log2 (Z.abs z) - 52) 0) as [H|H].
  - rewrite (round_int_small z H). apply round_int_small, H.
  - assert (H' : (0 < Z.log2 (Z.abs z) - 52)%Z) by lia.
    destruct (round_int_shape z H') as (m & e & He & Hm & Hr).
    rewrite Hr.
    assert (Hp : (0 < 2 ^ e)%Z) by (apply Z.pow_pos_nonneg; lia).
    assert (Hpos : (0 < m * 2 ^ e)%Z) by (apply Z.mul_pos_pos; lia).
    assert (H1 : Z.abs (Z.sgn z) = 1%Z)
      by (destruct z; simpl in *; [lia|reflexivity|reflexivity]).
    assert (Habs : Z.abs (Z.sgn z * (m * 2 ^ e)) = (m * 2 ^ e)%Z).
    { rewrite Z.abs_mul, H1. rewrite (Z.abs_eq (m * 2 ^ e)) by lia. apply Z.mul_1_l. }
    assert (Hsg : Z.sgn (Z.sgn z * (m * 2 ^ e)) = Z.sgn z).
    { rewrite Z.sgn_mul, (Z.sgn_pos (m * 2 ^ e)) by lia. rewrite Z.sgn_sgn. lia. }
    unfold round_int at 1. rewrite Habs, Hsg.
    destruct (Z.eq_dec m (2 ^ 53)%Z) as [Em|Nm].
    + assert (Hl : Z.log2 (m * 2 ^ e) = (53 + e)%Z).
      { apply Z.log2_unique; [lia|]. subst m.
        replace (Z.succ (53 + e)) with (54 + e)%Z by lia.
        rewrite !Z.pow_add_r by lia. lia. }
      rewrite Hl. replace (53 + e - 52)%Z with (e + 1)%Z by lia.
      destruct (Z.leb_spec (e + 1) 0); [lia|].
      assert (Hdiv : (m * 2 ^ e = 2 ^ 52 * 2 ^ (e + 1))%Z).
      { subst m. rewrite Z.pow_add_r by lia. change (2 ^ 53)%Z with (2 ^ 52 * 2)%Z. lia. }
      rewrite Hdiv.
      assert (Hp1 : (0 < 2 ^ (e + 1))%Z) by (apply Z.pow_pos_nonneg; lia).
      rewrite Z.div_mul by lia. rewrite Z.mod_mul by lia.
      replace (e + 1 - 1)%Z with e by lia.
      destruct (Z.ltb_spec 0 (2 ^ e)); [reflexivity|lia].
    + assert (Hl : Z.log2 (m * 2 ^ e) = (52 + e)%Z).
      { apply Z.log2_unique; [lia|].
        replace (Z.succ (52 + e)) with (53 + e)%Z by lia.
        rewrite !Z.pow_add_r by lia. split; nia. }
      rewrite Hl. replace (52 + e - 52)%Z with e by lia.
      destruct (Z.leb_spec e 0); [lia|].
      rewrite Z.div_mul by lia. rewrite Z.mod_mul by lia.
      assert ((0 < 2 ^ (e - 1))%Z) by (apply Z.pow_pos_nonneg; lia).
      destruct (Z.ltb_spec 0 (2 ^ (e - 1))); [reflexivity|lia].
Qed.

(** Conversion to a double keeps a double as it is. *)
Lemma to_double_idem (q : Q) : to_double (to_double q) = to_double q.
Proof.
  destruct (is_integral q) eqn:Hint.
  - destruct (Z.eqb (round_int (Z.quot (Qnum q) (Zpos (Qden q))))
                (Z.quot (Qnum q) (Zpos (Qden q)))) eqn:E.
    + assert (Hq : to_double q = q)
        by (unfold to_double; rewrite Hint; cbv zeta; rewrite E; reflexivity).
      rewrite !Hq. reflexivity.
    + assert (Hq : to_double q
                   = inject_Z (round_int (Z.quot (Qnum q) (Zpos (Qden q)))))
        by (unfold to_double; rewrite Hint; cbv zeta; rewrite E; reflexivity).
      rewrite Hq. unfold to_double, is_integral, inject_Z. cbn [Qnum Qden].
      rewrite Z.rem_1_r, Z.quot_1_r. simpl Z.eqb. cbv iota zeta.
      rewrite round_int_idem, Z.eqb_refl. reflexivity.
  - assert (Hq : to_double q = q) by (unfold to_double; rewrite Hint; reflexivity).
    rewrite !Hq. reflexivity.
Qed.

Lemma to_double_is_double (q : Q) : is_double q = true -> to_double q = q.
Proof.
  unfold is_double, to_double. destruct (is_integral q); [|reflexivity].
  cbv zeta. intros ->. reflexivity.
Qed.

Lemma is_double_to_double (q : Q) : is_double (to_double q) = true.
Proof.
  pose proof (to_double_idem q) as H. revert H.
  generalize (to_double q). intros r. unfold to_double, is_double.
  destruct (is_integral r); [|reflexivity]. cbv zeta.
  destruct (Z.eqb_spec (round_int (Z.quot (Qnum r) (Zpos (Qden r))))
              (Z.quot (Qnum r) (Zpos (Qden r)))) as [E|E]; [reflexivity|].
  intros H. exfalso. apply E.
  set (z := Z.quot (Qnum r) (Zpos (Qden r))) in *.
  assert (H1 : Qnum r = round_int z) by (rewrite <- H; reflexivity).
  assert (H2 : Qden r = 1%positive) by (rewrite <- H; reflexivity).
  symmetry. unfold z at 1. rewrite H2, H1. apply Z.quot_1_r.
Qed.

(** Conversion to a double keeps the sign. *)
Lemma to_double_nonneg (q : Q) : Qle_bool 0 (to_double q) = Qle_bool 0 q.
Proof.
  unfold to_double.
  destruct (is_integral q) eqn:Hint; [|reflexivity]. cbv zeta.
  destruct (Z.eqb_spec (round_int (Z.quot (Qnum q) (Zpos (Qden q))))
              (Z.quot (Qnum q) (Zpos (Qden q)))) as [_|_]; [reflexivity|].
  unfold is_integral in Hint. apply Z.eqb_eq in Hint.
  pose proof (Z.quot_rem' (Qnum q) (Zpos (Qden q))) as Hqr. rewrite Hint in Hqr.
  set (z := Z.quot (Qnum q) (Zpos (Qden q))) in *.
  pose proof (round_int_sgn z) as Hs.
  unfold Qle_bool, inject_Z. cbn [Qnum Qden]. rewrite !Z.mul_1_r, Z.mul_0_l.
  destruct (Z.leb_spec 0 (round_int z)) as [H1|H1],
    (Z.leb_spec 0 (Qnum q)) as [H2|H2]; try reflexivity; exfalso.
  - assert (z < 0)%Z by nia.
    rewrite (Z.sgn_neg z) in Hs by lia.
    destruct (Z.sgn_spec (round_int z)) as [[? ?]|[[? ?]|[? ?]]]; lia.
  - assert (0 <= z)%Z by nia.
    destruct (Z.sgn_spec (round_int z)) as [[? ?]|[[? ?]|[? ?]]];
      destruct (Z.sgn_spec z) as [[? ?]|[[? ?]|[? ?]]]; lia.
Qed.

(** ** Validation against [ProductIn] *)

Lemma ProductIn_validate_inr (kw : gmap string value) (p : ProductIn) :
  ProductIn_validate kw = inr p <->
  required_str "title" kw = Valid (title p) /\
  optional_str "description" kw = Valid (description p) /\
  required_float_ge0 "price" kw = Valid (price p) /\
  required_str "category" kw = Valid (category p) /\
  bool_with_default "in_stock" true kw = Valid (in_stock p) /\
  optional_str "image" kw = Valid (image p).
Proof.
  unfold ProductIn_validate. split.
  - destruct (required_str "title" kw); [|discriminate].
    destruct (optional_str "description" kw); [|discriminate].
    destruct (required_float_ge0 "price" kw); [|discriminate].
    destruct (required_str "category" kw); [|discriminate].
    destruct (bool_with_default "in_stock" true kw); [|discriminate].
    destruct (optional_str "image" kw); [|discriminate].
    intros [= <-]. repeat split.
  - intros (-> & -> & -> & -> & -> & ->). destruct p; reflexivity.
Qed.

Lemma required_str_Valid key kw s :
  required_str key kw = Valid s <-> kw !! key = Some (VStr s).
Proof.
  unfold required_str. split.
  - destruct (kw !! key) as [[]|]; intros [=]; congruence.
  - intros ->. reflexivity.
Qed.

Lemma optional_str_Valid key kw o :
  optional_str key kw = Valid o <-> default VNone (kw !! key) = opt_value o.
Proof.
  unfold optional_str.
  destruct (kw !! key) as [[]|], o; simpl; split; intros [=]; subst; reflexivity.
Qed.

Lemma required_float_ge0_Valid key kw f :
  required_float_ge0 key kw = Valid f <->
  exists q : Q,
    kw !! key = Some (VNum q) /\ f = to_double q /\ Qle_bool 0 f = true.
Proof.
  unfold required_float_ge0. split.
  - destruct (kw !! key) as [[| |q'|]|]; try discriminate.
    destruct (Qle_bool 0 (to_double q')) eqn:E; intros [=]; subst. eauto.
  - intros (q & -> & -> & ->). reflexivity.
Qed.

Lemma bool_with_default_Valid key dflt kw b :
  bool_with_default key dflt kw = Valid b <->
  default (VBool dflt) (kw !! key) = VBool b.
Proof.
  unfold bool_with_default.
  destruct (kw !! key) as [[]|]; simpl; split; intros [=]; subst; reflexivity.
Qed.

(** What an accepted body says about the validated product. *)
Lemma ProductIn_validate_fields (kw : gmap string value) (p : ProductIn) :
  ProductIn_validate kw = inr p ->
  kw !! "title" = Some (VStr (title p)) /\
  default VNone (kw !! "description") = opt_value (description p) /\
  (exists q : Q, kw !! "price" = Some (VNum q) /\ price p = to_double q) /\
  Qle_bool 0 (price p) = true /\
  kw !! "category" = Some (VStr (category p)) /\
  default (VBool true) (kw !! "in_stock") = VBool (in_stock p) /\
  default VNone (kw !! "image") = opt_value (image p).
Proof.
  intros (Ht & Hd & Hp & Hc & Hs & Hi)%ProductIn_validate_inr.
  apply required_str_Valid in Ht, Hc.
  apply optional_str_Valid in Hd, Hi.
  apply required_float_ge0_Valid in Hp as (q & Hq & Hf & Hge).
  apply bool_with_default_Valid in Hs.
  repeat split; eauto.
Qed.

(** The price of a validated product is a double. *)
Lemma ProductIn_validate_price (kw : gmap string value) (p : ProductIn) :
  ProductIn_validate kw = inr p -> to_double (price p) = price p.
Proof.
  intros (_ & _ & (q & _ & ->) & _)%ProductIn_validate_fields.
  apply to_double_idem.
Qed.

(** A dumped product validates to itself as soon as its price is a double
    that is no less than zero. *)
Lemma ProductIn_validate_model_dump (p : ProductIn) :
  Qle_bool 0 (price p) = true ->
  to_double (price p) = price p ->
  ProductIn_validate (model_dump p) = inr p.
Proof.
  intros Hp Hd. apply ProductIn_validate_inr.
  destruct p as [t d q c s i]; simpl in *.
  repeat split.
  - destruct d; reflexivity.
  - apply required_float_ge0_Valid. exists q. repeat split; auto.
  - destruct i; reflexivity.
Qed.

(** ** Filters and driver calls *)

Section StoreFacts.

Variable regex_search : string -> string -> string -> bool.
Lemma doc_matches_empty (doc : Document) :
  doc_matches regex_search ∅ doc = true.
Proof.
  unfold doc_matches. apply bool_decide_eq_true. apply map_Forall_empty.
Qed.

Lemma doc_matches_insert (filt : gmap string cond) (key : string) (c : cond)
    (doc : Document) :
  filt !! key = None ->
  doc_matches regex_search (<[key := c]> filt) doc =
  cond_holds regex_search doc key c && doc_matches regex_search filt doc.
Proof.
  intros Hnone. unfold doc_matches.
  destruct (cond_holds regex_search doc key c) eqn:Hc; simpl.
  - apply bool_decide_ext. rewrite map_Forall_insert by exact Hnone. tauto.
  - apply bool_decide_eq_false. rewrite map_Forall_insert by exact Hnone.
    intros [Hk _]. congruence.
Qed.

(** The operators of a dictionary hold one by one. *)
Lemma ops_hold_insert (all ops : gmap string value) (fv : option value)
    (op : string) (arg : value) :
  ops !! op = None ->
  bool_decide (map_Forall (fun o a => op_holds regex_search all fv o a = true)
                 (<[op := arg]> ops)) =
  op_holds regex_search all fv op arg
  && bool_decide (map_Forall (fun o a => op_holds regex_search all fv o a = true) ops).
Proof.
  intros Hnone.
  destruct (op_holds regex_search all fv op arg) eqn:Hc; simpl.
  - apply bool_decide_ext. rewrite map_Forall_insert by exact Hnone. tauto.
  - apply bool_decide_eq_false. rewrite map_Forall_insert by exact Hnone.
    intros [Hk _]. congruence.
Qed.

Lemma ops_hold_empty (all : gmap string value) (fv : option value) :
  bool_decide (map_Forall (fun o a => op_holds regex_search all fv o a = true)
                 (∅ : gmap string value)) = true.
Proof. apply bool_decide_eq_true. apply map_Forall_empty. Qed.

Lemma doc_matches_id (bs : list N) (doc : Document) :
  doc_matches regex_search {[ "_id" := COid bs ]} doc = binary_is bs (_id doc).
Proof.
  rewrite <- insert_empty, doc_matches_insert by apply lookup_empty.
  rewrite doc_matches_empty, andb_true_r. reflexivity.
Qed.

(** Looking a parsed identifier up is looking up the number that its twelve
    bytes spell. *)
Lemma find_matches_id (bs : list N) (o : ObjectId) (l : list Document) :
  length bs = 12 ->
  binary_value bs = o ->
  List.find (doc_matches regex_search {[ "_id" := COid bs ]}) l =
  List.find (fun doc => N.eqb (_id doc) o) l.
Proof.
  intros Hlen Hval. induction l as [|doc l IH]; simpl; [reflexivity|].
  rewrite doc_matches_id, IH, (binary_is_eqb bs o (_id doc) Hlen Hval).
  reflexivity.
Qed.

Lemma find_matches_binary (bs : list N) (l : list Document) :
  List.find (doc_matches regex_search {[ "_id" := COid bs ]}) l =
  List.find (fun doc => binary_is bs (_id doc)) l.
Proof.
  induction l as [|doc l IH]; simpl; [reflexivity|].
  rewrite doc_matches_id, IH. reflexivity.
Qed.

(** Fewer or more than twelve bytes are the identifier of no document. *)
Lemma find_short_id (bs : list N) (l : list Document) :
  length bs <> 12 ->
  List.find (doc_matches regex_search {[ "_id" := COid bs ]}) l = None.
Proof.
  intros Hlen. induction l as [|doc l IH]; simpl; [reflexivity|].
  rewrite doc_matches_id, IH. unfold binary_is.
  destruct (Nat.eqb_spec (length bs) 12) as [E|_]; [contradiction|reflexivity].
Qed.

Lemma filter_matches_all (l : list Document) :
  List.filter (doc_matches regex_search ∅) l = l.
Proof.
  induction l as [|doc l IH]; simpl; [reflexivity|].
  rewrite doc_matches_empty, IH. reflexivity.
Qed.

End StoreFacts.

Section FilterFacts.

Variable regex_valid : string -> string -> bool.

Lemma filter_valid_empty : filter_valid regex_valid ∅ = true.
Proof.
  unfold filter_valid. apply bool_decide_eq_true. apply map_Forall_empty.
Qed.

Lemma filter_valid_insert (filt : gmap string cond) (key : string) (c : cond) :
  filt !! key = None ->
  filter_valid regex_valid (<[key := c]> filt)
  = cond_valid regex_valid c && filter_valid regex_valid filt.
Proof.
  intros Hnone. unfold filter_valid.
  destruct (cond_valid regex_valid c) eqn:Hc; simpl.
  - apply bool_decide_ext. rewrite map_Forall_insert by exact Hnone. tauto.
  - apply bool_decide_eq_false. rewrite map_Forall_insert by exact Hnone.
    intros [Hk _]. congruence.
Qed.

Lemma bool_decide_is_Some {A} (o : option A) :
  bool_decide (is_Some o) = match o with Some _ => true | None => false end.
Proof.
  destruct o.
  - apply bool_decide_eq_true. eauto.
  - apply bool_decide_eq_false. intros [x Hx]. discriminate.
Qed.

(** The filter of [list_products] carries one pattern at most, the one of
    [q]; the store accepts the filter when it accepts that pattern. *)
Lemma list_products_filter_valid (q category : option string)
    (min_price max_price : option Q) :
  filter_valid regex_valid (list_products_filter q category min_price max_price)
  = if truthy_str q then regex_valid (default EmptyString q) "i" else true.
Proof.
  unfold list_products_filter. cbv zeta. rewrite !bool_decide_is_Some.
  destruct q as [pat|], category as [c|], min_price as [lo|], max_price as [hi|];
    simpl truthy; simpl truthy_str; simpl default;
    repeat match goal with |- context [negb ?b] => destruct (negb b) end;
    cbn [orb];
    repeat (rewrite filter_valid_insert by reflexivity);
    rewrite ?filter_valid_empty, ?andb_true_r; reflexivity.
Qed.

End FilterFacts.

Lemma find_fresh_id (n : ObjectId) (l : list Document) (doc : Document) :
  forallb (fun x => N.ltb (_id x) n) l = true ->
  _id doc = n ->
  List.find (fun x => N.eqb (_id x) n) (l ++ [doc]) = Some doc.
Proof.
  intros Hl Hdoc. induction l as [|x l IH]; simpl in *.
  - rewrite Hdoc, N.eqb_refl. reflexivity.
  - apply andb_prop in Hl as [Hx Hl].
    apply N.ltb_lt in Hx.
    destruct (N.eqb_spec (_id x) n) as [E|_]; [lia|]. exact (IH Hl).
Qed.

Lemma collection_insert (d : Database) (name : string) (l : list Document) (n : ObjectId) :
  collection (mkDatabase (server_up d) (<[name := l]> (collections d)) n) name = l.
Proof. unfold collection. simpl. rewrite lookup_insert_eq. reflexivity. Qed.

(** ** Serialization *)

Lemma serialize_product_valid (doc : Document) (p : ProductIn) (w : World) :
  ProductIn_validate (product_kwargs doc) = inr p ->
  serialize_product doc w = (Return (mkProductOut (ObjectId_str (_id doc)) p), w).
Proof.
  intros H. unfold serialize_product, ProductOut_new. rewrite H. reflexivity.
Qed.

Lemma product_kwargs_model_dump (o : ObjectId) (p : ProductIn) :
  product_kwargs (mkDocument o (model_dump p)) = model_dump p.
Proof. reflexivity. Qed.

Lemma serialize_product_model_dump (o : ObjectId) (p : ProductIn) (w : World) :
  Qle_bool 0 (price p) = true ->
  to_double (price p) = price p ->
  serialize_product (mkDocument o (model_dump p)) w
  = (Return (mkProductOut (ObjectId_str o) p), w).
Proof.
  intros Hp Hd. apply serialize_product_valid.
  rewrite product_kwargs_model_dump. apply ProductIn_validate_model_dump; assumption.
Qed.

(** A body of plain values validates. *)
Lemma ProductIn_validate_plain (body : gmap string value) (t c : string) (q : Q) :
  body !! "title" = Some (VStr t) ->
  text_or_absent (body !! "description") = true ->
  body !! "price" = Some (VNum q) ->
  Qle_bool 0 q = true ->
  body !! "category" = Some (VStr c) ->
  bool_or_absent (body !! "in_stock") = true ->
  text_or_absent (body !! "image") = true ->
  exists payload : ProductIn,
    ProductIn_validate body = inr payload /\
    title payload = t /\ price payload = to_double q /\ category payload = c.
Proof.
  intros Ht Hd Hp Hge Hc Hs Hi.
  unfold ProductIn_validate, required_str, optional_str, required_float_ge0,
    bool_with_default.
  rewrite Ht, Hp, Hc, to_double_nonneg, Hge.
  destruct (body !! "description") as [[| | |]|]; try discriminate;
    destruct (body !! "in_stock") as [[| | |]|]; try discriminate;
    destruct (body !! "image") as [[| | |]|]; try discriminate;
    eexists; repeat split.
Qed.

(** ** Creating, then fetching *)

(** The fetch that follows a creation on a store with fresh identifiers. *)
Lemma get_product_created
    (regex_search : string -> string -> string -> bool)
    (colls : gmap string (list Document)) (n : ObjectId) (payload : ProductIn) :
  ids_fresh (mkDatabase true colls n) = true ->
  Qle_bool 0 (price payload) = true ->
  to_double (price payload) = price payload ->
  let d := mkDatabase true colls n in
  let w' := Some (mkDatabase true
                    (<["product" := (collection d "product"
                                     ++ [mkDocument n (model_dump payload)])%list]> colls)
                    (N.succ n)) in
  request (get_product regex_search (ObjectId_str n)) w'
  = (Success (mkProductOut (ObjectId_str n) payload), w').
Proof.
  intros Hfresh Hge Hdbl.
  set (d := mkDatabase true colls n) in *. cbv zeta.
  apply andb_prop in Hfresh as [Hbelow Hbound]. apply N.ltb_lt in Hbound.
  unfold ids_below in Hbelow. cbn [next_oid d] in Hbelow, Hbound.
  destruct (ObjectId_parse_str n Hbound) as (bs & Hparse & Hlen & Hval).
  set (doc := mkDocument n (model_dump payload)) in *.
  set (d' := mkDatabase true
               (<["product" := (collection d "product" ++ [doc])%list]> colls)
               (N.succ n)) in *.
  assert (Hcoll : collection d' "product" = (collection d "product" ++ [doc])%list)
    by (unfold d', collection at 1; simpl; rewrite lookup_insert_eq; reflexivity).
  unfold request, get_product, bind, get_db.
  rewrite Hparse.
  unfold find_one, driver, ret. cbn [server_up d'].
  rewrite (find_matches_id regex_search bs n _ Hlen Hval), Hcoll.
  rewrite (find_fresh_id n _ doc Hbelow eq_refl). unfold doc.
  rewrite serialize_product_model_dump by assumption. reflexivity.
Qed.

(** C1 (create then fetch), as the code has it.  For a request body whose
    title and category are strings, whose price is a number no less than
    zero within the range of a double, whose in_stock is a boolean or
    omitted, whose description and image are strings, null or omitted, and
    that the schema accepts, on a store that answers and whose identifiers
    are fresh: [POST /api/products] returns an identifier, and
    [GET /api/products/{id}] with that identifier returns, without changing
    the store, a product with that identifier whose title, description,
    category, in_stock and image are those of the body, in_stock being true
    when the body omits it, and whose price is the price of the body
    converted to a double: the price of the body itself when that is a
    double, and the double nearest to it otherwise. *)
Theorem create_then_fetch_double
    (regex_search : string -> string -> string -> bool)
    (ProductSchema : gmap string value -> list FieldError)
    (body : gmap string value) (d : Database) (t c : string) (q : Q) :
  body !! "title" = Some (VStr t) ->
  text_or_absent (body !! "description") = true ->
  body !! "price" = Some (VNum q) ->
  Qle_bool 0 q = true ->
  in_double_range q = true ->
  body !! "category" = Some (VStr c) ->
  bool_or_absent (body !! "in_stock") = true ->
  text_or_absent (body !! "image") = true ->
  (forall payload : ProductIn,
     ProductIn_validate body = inr payload -> ProductSchema (model_dump payload) = []) ->
  server_up d = true ->
  ids_fresh d = true ->
  exists (new_id : string) (w' : World) (out : ProductOut),
    request (post_product ProductSchema body) (Some d) = (Success new_id, w') /\
    request (get_product regex_search new_id) w' = (Success out, w') /\
    id out = new_id /\
    title out = t /\
    default VNone (body !! "description") = opt_value (description out) /\
    price out = to_double q /\
    (is_double q = true -> body !! "price" = Some (VNum (price out))) /\
    category out = c /\
    default (VBool true) (body !! "in_stock") = VBool (in_stock out) /\
    (body !! "in_stock" = None -> in_stock out = true) /\
    default VNone (body !! "image") = opt_value (image out).
Proof.
  intros Ht Hd Hp Hge _ Hc Hs Hi Hschema Hup Hfresh.
  destruct (ProductIn_validate_plain body t c q Ht Hd Hp Hge Hc Hs Hi)
    as (payload & Hvalid & Htitle & Hprice & Hcat).
  specialize (Hschema payload Hvalid).
  pose proof (ProductIn_validate_fields _ _ Hvalid)
    as (_ & Hd' & _ & Hge' & _ & Hs' & Hi').
  pose proof (ProductIn_validate_price _ _ Hvalid) as Hdbl.
  destruct d as [up colls n]. simpl in Hup. subst up.
  eexists (ObjectId_str n), _, (mkProductOut (ObjectId_str n) payload).
  split; [|split].
  - unfold request, post_product. rewrite Hvalid.
    unfold create_product, ProductSchema_new. rewrite Hschema.
    reflexivity.
  - exact (get_product_created regex_search colls n payload Hfresh Hge' Hdbl).
  - simpl. repeat split; try assumption.
    + intros Hq. rewrite Hprice, (to_double_is_double q Hq). exact Hp.
    + intros Hnone. rewrite Hnone in Hs'. simpl in Hs'. congruence.
Qed.

Lemma create_then_fetch_double_witness :
  exists (new_id : string) (w' : World) (out : ProductOut),
    request (post_product ProductSchema_spec earbuds_body) (Some empty_store)
    = (Success new_id, w') /\
    request (get_product substring_search new_id) w' = (Success out, w') /\
    id out = new_id /\
    title out = "Earbuds" /\
    default VNone (earbuds_body !! "description") = opt_value (description out) /\
    price out = to_double (4999 # 100) /\
    (is_double (4999 # 100) = true ->
     earbuds_body !! "price" = Some (VNum (price out))) /\
    category out = "Audio" /\
    default (VBool true) (earbuds_body !! "in_stock") = VBool (in_stock out) /\
    (earbuds_body !! "in_stock" = None -> in_stock out = true) /\
    default VNone (earbuds_body !! "image") = opt_value (image out).
Proof.
  apply (create_then_fetch_double substring_search ProductSchema_spec earbuds_body
           empty_store "Earbuds" "Audio" (4999 # 100));
    try reflexivity.
  intros payload Hvalid. injection Hvalid as <-. reflexivity.
Defined.

(** A price of 2^53 + 1 comes back as 2^53: the product fetched after the
    creation does not carry the price of the body. *)
Lemma create_then_fetch_rounds_price :
  exists (new_id : string) (w' : World) (out : ProductOut),
    request (post_product ProductSchema_spec odd_price_body) (Some empty_store)
    = (Success new_id, w') /\
    request (get_product substring_search new_id) w' = (Success out, w') /\
    odd_price_body !! "price" = Some (VNum 9007199254740993) /\
    price out = 9007199254740992%Q /\
    Qeq_bool (price out) 9007199254740993%Q = false.
Proof.
  eexists _, _, _. split; [|split; [|split; [|split]]].
  - vm_compute. reflexivity.
  - vm_compute. reflexivity.
  - reflexivity.
  - vm_compute. reflexivity.
  - vm_compute. reflexivity.
Qed.

(** ** The filter of [list_products] *)

(** With [category] present and empty, the filter that the handler builds is
    empty and matches a document of category Audio, which equality with the
    empty string does not. *)
Lemma list_products_filter_empty_category :
  list_products_filter None (Some EmptyString) None None = ∅ /\
  doc_matches substring_search
    (list_products_filter None (Some EmptyString) None None) headphones = true /\
  described_filter None (Some EmptyString) None None headphones = false.
Proof. vm_compute. repeat split. Qed.

Lemma cond_holds_regex (regex_search : string -> string -> string -> bool)
    (pat : string) (doc : Document) :
  cond_holds regex_search doc "title"
    (COps {[ "$regex" := VStr pat; "$options" := VStr "i" ]})
  = title_matches regex_search pat doc.
Proof.
  unfold cond_holds, title_matches.
  rewrite <- (insert_empty (M := gmap string) "$options").
  rewrite ops_hold_insert by reflexivity.
  rewrite ops_hold_insert by reflexivity.
  rewrite ops_hold_empty, !andb_true_r.
  unfold op_holds. simpl.
  destruct (doc_get doc "title") as [[]|]; reflexivity.
Qed.

Lemma cond_holds_category (regex_search : string -> string -> string -> bool)
    (c : string) (doc : Document) :
  cond_holds regex_search doc "category" (CEq (VStr c)) = category_is c doc.
Proof.
  unfold cond_holds, category_is. destruct (doc_get doc "category"); reflexivity.
Qed.

Lemma cond_holds_price (regex_search : string -> string -> string -> bool)
    (min_price max_price : option Q) (doc : Document) :
  cond_holds regex_search doc "price"
    (COps (let price : gmap string value := ∅ in
           let price :=
             match min_price with
             | Some lo => <["$gte" := VNum lo]> price
             | None => price
             end in
           match max_price with
           | Some hi => <["$lte" := VNum hi]> price
           | None => price
           end))
  = from_option (fun lo => price_at_least lo doc) true min_price
    && from_option (fun hi => price_at_most hi doc) true max_price.
Proof.
  unfold cond_holds, price_at_least, price_at_most. cbv zeta.
  destruct min_price as [lo|], max_price as [hi|]; simpl from_option.
  - rewrite ops_hold_insert by reflexivity.
    rewrite ops_hold_insert by reflexivity.
    rewrite ops_hold_empty, andb_true_r. unfold op_holds. simpl.
    destruct (doc_get doc "price") as [[]|]; simpl; try reflexivity.
    apply andb_comm.
  - rewrite ops_hold_insert by reflexivity.
    rewrite ops_hold_empty, !andb_true_r. unfold op_holds. simpl.
    destruct (doc_get doc "price") as [[]|]; reflexivity.
  - rewrite ops_hold_insert by reflexivity.
    rewrite ops_hold_empty, andb_true_r. unfold op_holds. simpl.
    destruct (doc_get doc "price") as [[]|]; reflexivity.
  - rewrite ops_hold_empty. reflexivity.
Qed.

(** C2 (filter construction), as the handler has it.  For every combination
    of the query parameters, a document matches the filter that
    [GET /api/products] builds exactly when all of these hold: its title
    matches [q] as a regular expression read without regard to case, when
    [q] is given and not empty; its category equals [category], when
    [category] is given and not empty; its price is a number no less than
    [min_price] and no more than [max_price], for whichever bounds are given.
    With no parameter the filter is empty and matches every document. *)
Theorem list_products_filter_meaning
    (regex_search : string -> string -> string -> bool)
    (q category : option string) (min_price max_price : option Q)
    (doc : Document) :
  doc_matches regex_search (list_products_filter q category min_price max_price) doc
  = (if truthy_str q then title_matches regex_search (default EmptyString q) doc else true)
    && (if truthy_str category then category_is (default EmptyString category) doc else true)
    && from_option (fun lo => price_at_least lo doc) true min_price
    && from_option (fun hi => price_at_most hi doc) true max_price
  /\ list_products_filter None None None None = ∅
  /\ doc_matches regex_search (list_products_filter None None None None) doc = true.
Proof.
  split; [|split; [reflexivity|apply doc_matches_empty]].
  unfold list_products_filter. cbv zeta.
  assert (Hprice : forall filt : gmap string cond,
    filt !! "price" = None ->
    doc_matches regex_search
      (if bool_decide (is_Some min_price) || bool_decide (is_Some max_price)
       then <["price" := COps
                (match max_price with
                 | Some hi => <["$lte" := VNum hi]>
                     (match min_price with
                      | Some lo => <["$gte" := VNum lo]> (∅ : gmap string value)
                      | None => ∅
                      end)
                 | None =>
                     match min_price with
                     | Some lo => <["$gte" := VNum lo]> (∅ : gmap string value)
                     | None => ∅
                     end
                 end)]> filt
       else filt) doc
    = doc_matches regex_search filt doc
      && (from_option (fun lo => price_at_least lo doc) true min_price
          && from_option (fun hi => price_at_most hi doc) true max_price)).
  { intros filt Hnone.
    destruct (bool_decide (is_Some min_price) || bool_decide (is_Some max_price)) eqn:Hb.
    - rewrite doc_matches_insert by exact Hnone.
      rewrite <- (cond_holds_price regex_search min_price max_price doc).
      apply andb_comm.
    - apply orb_false_elim in Hb as [Hlo Hhi].
      apply bool_decide_eq_false in Hlo, Hhi.
      destruct min_price; [exfalso; apply Hlo; eauto|].
      destruct max_price; [exfalso; apply Hhi; eauto|].
      simpl. rewrite andb_true_r. reflexivity. }
  rewrite Hprice.
  - rewrite andb_assoc. do 2 f_equal.
    destruct q as [pat|], category as [c|]; simpl truthy; simpl truthy_str;
      simpl default.
    + destruct (negb (String.eqb pat EmptyString)), (negb (String.eqb c EmptyString)).
      * rewrite doc_matches_insert by reflexivity.
        rewrite doc_matches_insert by reflexivity.
        rewrite doc_matches_empty, andb_true_r.
        rewrite cond_holds_regex, cond_holds_category. apply andb_comm.
      * rewrite doc_matches_insert by reflexivity.
        rewrite doc_matches_empty, !andb_true_r. apply cond_holds_regex.
      * rewrite doc_matches_insert by reflexivity.
        rewrite doc_matches_empty, andb_true_r. apply cond_holds_category.
      * apply doc_matches_empty.
    + destruct (negb (String.eqb pat EmptyString)).
      * rewrite doc_matches_insert by reflexivity.
        rewrite doc_matches_empty, !andb_true_r. apply cond_holds_regex.
      * apply doc_matches_empty.
    + destruct (negb (String.eqb c EmptyString)).
      * rewrite doc_matches_insert by reflexivity.
        rewrite doc_matches_empty, andb_true_r. apply cond_holds_category.
      * apply doc_matches_empty.
    + apply doc_matches_empty.
  - destruct q as [pat|], category as [c|]; simpl truthy;
      repeat match goal with |- context [negb ?b] => destruct (negb b) end;
      reflexivity.
Qed.

(** ** Store errors in the list endpoints *)

(** With a store that is configured and does not answer, the driver call of
    [list_categories] raises, nothing catches it and the response is a 500;
    the same holds for [list_products]. *)
Lemma list_endpoints_store_error :
  request list_categories (Some unreachable_store)
  = (Failure 500 (DetailText "Internal Server Error"), Some unreachable_store) /\
  request (list_products substring_search substring_valid None None None None)
    (Some unreachable_store)
  = (Failure 500 (DetailText "Internal Server Error"), Some unreachable_store).
Proof. split; reflexivity. Qed.

(** C3 (store errors in the list endpoints), as the handlers have it.
    Without a configured store ([db] is [None]) both [GET /api/products] and
    [GET /api/categories] answer with the empty list.  They catch nothing:
    when the store is configured and its call raises, the exception leaves
    the handler and the response is a 500. *)
Theorem list_endpoints_without_store
    (regex_search : string -> string -> string -> bool)
    (regex_valid : string -> string -> bool)
    (q category : option string) (min_price max_price : option Q)
    (colls : gmap string (list Document)) (n : ObjectId) :
  request (list_products regex_search regex_valid q category min_price max_price) None
  = (Success [], None) /\
  request list_categories None = (Success [], None) /\
  request (list_products regex_search regex_valid q category min_price max_price)
    (Some (mkDatabase false colls n))
  = (Failure 500 (DetailText "Internal Server Error"), Some (mkDatabase false colls n)) /\
  request list_categories (Some (mkDatabase false colls n))
  = (Failure 500 (DetailText "Internal Server Error"), Some (mkDatabase false colls n)).
Proof. repeat split. Qed.

(** ** Validation of the request body *)

(** A negative price is refused with status 422, not 400. *)
Lemma negative_price_status :
  request (post_product accept_all negative_price_body) (Some empty_store)
  = (Failure 422 (DetailFields [("price", "greater_than_equal")]), Some empty_store) /\
  status (fst (request (post_product accept_all negative_price_body) (Some empty_store)))
  = 422.
Proof. split; reflexivity. Qed.

Lemma required_float_ge0_negative (body : gmap string value) (q : Q) :
  body !! "price" = Some (VNum q) -> (q < 0)%Q ->
  required_float_ge0 "price" body = Invalid ("price", "greater_than_equal").
Proof.
  intros Hq Hneg. unfold required_float_ge0. rewrite Hq, to_double_nonneg.
  destruct (Qle_bool 0 q) eqn:E; [|reflexivity].
  apply Qle_bool_iff in E. exfalso. apply (Qlt_not_le _ _ Hneg E).
Qed.

Lemma ProductIn_validate_price_error (body : gmap string value) :
  required_float_ge0 "price" body = Invalid ("price", "greater_than_equal") ->
  exists errs, ProductIn_validate body = inl errs
               /\ ("price", "greater_than_equal") ∈ errs.
Proof.
  intros Hp. unfold ProductIn_validate. rewrite Hp.
  destruct (required_str "title" body), (optional_str "description" body),
    (required_str "category" body), (bool_with_default "in_stock" true body),
    (optional_str "image" body);
    eexists; (split; [reflexivity|]); simpl;
    rewrite ?elem_of_cons; auto 10.
Qed.

(** C4 (negative price), as the framework reports it.  For every create
    payload whose price is a number below zero, whatever the schema and the
    store, [POST /api/products] fails in the validation of the request body:
    the response has status 422 and carries the field errors, among which the
    one of [price], and the store is unchanged, so no document is inserted. *)
Theorem negative_price_rejected
    (ProductSchema : gmap string value -> list FieldError)
    (body : gmap string value) (q : Q) (w : World) :
  body !! "price" = Some (VNum q) ->
  (q < 0)%Q ->
  exists errs : list FieldError,
    request (post_product ProductSchema body) w
    = (Failure 422 (DetailFields errs), w)
    /\ ("price", "greater_than_equal") ∈ errs.
Proof.
  intros Hq Hneg.
  destruct (ProductIn_validate_price_error body
              (required_float_ge0_negative body q Hq Hneg)) as (errs & Herrs & Hin).
  exists errs. split; [|exact Hin].
  unfold request, post_product. rewrite Herrs. reflexivity.
Qed.

Lemma negative_price_rejected_witness :
  exists errs : list FieldError,
    request (post_product accept_all negative_price_body) (Some empty_store)
    = (Failure 422 (DetailFields errs), Some empty_store)
    /\ ("price", "greater_than_equal") ∈ errs.
Proof.
  apply (negative_price_rejected accept_all negative_price_body (-1) (Some empty_store));
    reflexivity.
Defined.

Lemma required_str_Invalid (key : string) (kw : gmap string value) :
  is_text (kw !! key) = false ->
  exists ty : string, required_str key kw = Invalid (key, ty).
Proof.
  unfold required_str.
  destruct (kw !! key) as [[]|]; intros [=]; eexists; reflexivity.
Qed.

Lemma required_str_text (key : string) (kw : gmap string value) :
  is_text (kw !! key) = true -> exists s : string, required_str key kw = Valid s.
Proof.
  unfold required_str.
  destruct (kw !! key) as [[]|]; intros [=]; eexists; reflexivity.
Qed.

Lemma optional_str_text (key : string) (kw : gmap string value) :
  text_or_absent (kw !! key) = true ->
  exists o : option string, optional_str key kw = Valid o.
Proof.
  unfold optional_str.
  destruct (kw !! key) as [[]|]; intros [=]; eexists; reflexivity.
Qed.




(** ** Fetching one product *)

Lemma product_kwargs_lookup (doc : Document) :
  product_kwargs doc !! "title" = Some (default VNone (doc_get doc "title")) /\
  product_kwargs doc !! "description" = Some (default VNone (doc_get doc "description")) /\
  product_kwargs doc !! "price" = Some (default VNone (doc_get doc "price")) /\
  product_kwargs doc !! "category" = Some (default VNone (doc_get doc "category")) /\
  product_kwargs doc !! "in_stock" = Some (default (VBool true) (doc_get doc "in_stock")) /\
  product_kwargs doc !! "image" = Some (default VNone (doc_get doc "image")).
Proof. repeat split. Qed.

(** A document of the product shape serializes, to the product of its
    identifier and fields. *)
Lemma serialize_product_to_product (doc : Document) (w : World) :
  product_shaped doc = true ->
  serialize_product doc w = (Return (to_product doc), w).
Proof.
  unfold product_shaped. intros H.
  repeat (apply andb_prop in H as [H ?]).
  destruct (doc_get doc "title") as [[| | |t]|] eqn:Ht; try discriminate.
  destruct (doc_get doc "price") as [[| |q|]|] eqn:Hq; try discriminate.
  destruct (doc_get doc "category") as [[| | |c]|] eqn:Hc; try discriminate.
  pose proof (product_kwargs_lookup doc) as (Kt & Kd & Kp & Kc & Ks & Ki).
  rewrite Ht in Kt. rewrite Hq in Kp. rewrite Hc in Kc. simpl in Kt, Kp, Kc.
  apply serialize_product_valid, ProductIn_validate_inr.
  unfold to_product. rewrite Ht, Hq, Hc. simpl.
  rewrite !required_str_Valid, !optional_str_Valid, required_float_ge0_Valid,
    bool_with_default_Valid. rewrite Kt, Kd, Kc, Ks, Ki. simpl.
  repeat split.
  - destruct (doc_get doc "description") as [[]|]; try discriminate; reflexivity.
  - exists q. rewrite to_double_nonneg. auto.
  - destruct (doc_get doc "in_stock") as [[]|]; try discriminate; reflexivity.
  - destruct (doc_get doc "image") as [[]|]; try discriminate; reflexivity.
Qed.

Lemma serialize_product_outcome (doc : Document) (w : World) :
  (exists out, serialize_product doc w = (Return out, w)) \/
  (exists errs, serialize_product doc w = (Raise (ValidationError errs), w)).
Proof.
  unfold serialize_product, ProductOut_new.
  destruct (ProductIn_validate (product_kwargs doc)); eauto.
Qed.

(** [ProductOut] refuses a document without a string for title or category,
    or without a number no less than zero for price. *)
Lemma serialize_product_unserializable (doc : Document) (w : World) :
  unserializable doc = true ->
  exists errs : list FieldError,
    serialize_product doc w = (Raise (ValidationError errs), w).
Proof.
  intros Hbad.
  destruct (serialize_product_outcome doc w) as [[out Hout]|[errs Herrs]]; [|eauto].
  exfalso. unfold serialize_product, ProductOut_new in Hout.
  destruct (ProductIn_validate (product_kwargs doc)) as [errs|p] eqn:Hvalid;
    [discriminate|].
  apply ProductIn_validate_fields in Hvalid as (Ht & _ & (q & Hp & Hq) & Hge & Hc & _).
  pose proof (product_kwargs_lookup doc) as (Kt & _ & Kp & Kc & _).
  rewrite Kt in Ht. rewrite Kp in Hp. rewrite Kc in Hc.
  unfold unserializable in Hbad.
  destruct (doc_get doc "title") as [[]|]; simpl in Ht; try discriminate Ht.
  destruct (doc_get doc "category") as [[]|]; simpl in Hc; try discriminate Hc.
  destruct (doc_get doc "price") as [[]|]; simpl in Hp; try discriminate Hp.
  simpl in Hbad. injection Hp as ->.
  rewrite Hq, to_double_nonneg in Hge. rewrite Hge in Hbad. discriminate.
Qed.

Lemma find_none_iff_existsb {A} (f : A -> bool) (l : list A) :
  List.find f l = None <-> existsb f l = false.
Proof.
  induction l as [|x l IH]; simpl; [tauto|].
  destruct (f x); simpl; [split; discriminate|exact IH].
Qed.

Lemma find_some_existsb {A} (f : A -> bool) (l : list A) :
  existsb f l = true -> exists x, List.find f l = Some x.
Proof.
  intros H. destruct (List.find f l) eqn:E; [eauto|].
  apply find_none_iff_existsb in E. congruence.
Qed.

Section GetProduct.

Variable regex_search : string -> string -> string -> bool.

(** A string that has not 24 characters is no identifier. *)
Lemma ObjectId_parse_length (product_id : string) :
  String.length product_id <> 24 -> ObjectId_parse product_id = None.
Proof.
  intros Hlen. unfold ObjectId_parse.
  destruct (Nat.eqb_spec (String.length product_id) 24); [contradiction|reflexivity].
Qed.

Lemma get_product_invalid (d : Database) (product_id : string) :
  ObjectId_parse product_id = None ->
  get_product regex_search product_id (Some d)
  = (Raise (HTTPException 400 "Invalid product id"), Some d).
Proof.
  intros Hparse. unfold get_product, bind, get_db. rewrite Hparse. reflexivity.
Qed.

Lemma get_product_down (d : Database) (product_id : string) (bs : list N) :
  server_up d = false ->
  ObjectId_parse product_id = Some bs ->
  get_product regex_search product_id (Some d) = (Raise PyMongoError, Some d).
Proof.
  intros Hup Hparse. unfold get_product, bind, get_db. rewrite Hparse.
  unfold find_one, driver. rewrite Hup. reflexivity.
Qed.

Lemma get_product_find (d : Database) (product_id : string) (bs : list N) :
  server_up d = true ->
  ObjectId_parse product_id = Some bs ->
  get_product regex_search product_id (Some d) =
  match List.find (fun doc => binary_is bs (_id doc)) (collection d "product") with
  | None => (Raise (HTTPException 404 "Product not found"), Some d)
  | Some doc => serialize_product doc (Some d)
  end.
Proof.
  intros Hup Hparse. unfold get_product, bind, get_db. rewrite Hparse.
  unfold find_one, driver. rewrite Hup. unfold ret. rewrite find_matches_binary.
  destruct (List.find _ _); reflexivity.
Qed.

End GetProduct.

(** With a store that is configured and does not answer, an identifier that
    parses is answered with 500: neither 503, nor 404, nor a product. *)
Lemma get_product_store_down :
  ObjectId_parse "000000000000000000000001" = Some [0; 0; 0; 0; 0; 0; 0; 0; 0; 0; 0; 1]%N /\
  request (get_product substring_search "000000000000000000000001")
    (Some unreachable_store)
  = (Failure 500 (DetailText "Internal Server Error"), Some unreachable_store) /\
  status (fst (request (get_product substring_search "000000000000000000000001")
                 (Some unreachable_store))) = 500.
Proof. repeat split. Qed.

(** C6 (responses of the single-product endpoint), as the handler has them.
    For every request to [GET /api/products/{id}]: without a configured
    store the status is 503.  With a configured store, an id that has not 24
    characters, or that [bytes.fromhex] does not read, gives 400, whether the
    store answers or not.  For an id that parses, the status is 500 when the
    store does not answer; when it answers, the status is 404 if no document
    of the product collection has the parsed identifier, and otherwise the
    first such document is serialized: the response is the product of its
    fields when the document has the product shape, and a 500 when
    [ProductOut] refuses it.  No response changes the store. *)
Theorem get_product_cases
    (regex_search : string -> string -> string -> bool) (product_id : string) :
  request (get_product regex_search product_id) None
  = (Failure 503 (DetailText "Database unavailable"), None) /\
  (forall d : Database,
     (String.length product_id <> 24 ->
      request (get_product regex_search product_id) (Some d)
      = (Failure 400 (DetailText "Invalid product id"), Some d)) /\
     (ObjectId_parse product_id = None ->
      request (get_product regex_search product_id) (Some d)
      = (Failure 400 (DetailText "Invalid product id"), Some d)) /\
     (forall bs : list N,
        ObjectId_parse product_id = Some bs ->
        (server_up d = false ->
         request (get_product regex_search product_id) (Some d)
         = (Failure 500 (DetailText "Internal Server Error"), Some d)) /\
        (server_up d = true ->
         List.find (fun doc => binary_is bs (_id doc)) (collection d "product") = None ->
         request (get_product regex_search product_id) (Some d)
         = (Failure 404 (DetailText "Product not found"), Some d)) /\
        (forall doc : Document,
           server_up d = true ->
           List.find (fun doc => binary_is bs (_id doc)) (collection d "product")
           = Some doc ->
           In doc (collection d "product") /\
           (product_shaped doc = true ->
            request (get_product regex_search product_id) (Some d)
            = (Success (to_product doc), Some d)) /\
           (unserializable doc = true ->
            request (get_product regex_search product_id) (Some d)
            = (Failure 500 (DetailText "Internal Server Error"), Some d))))).
Proof.
  split; [reflexivity|]. intros d. split; [|split].
  - intros Hlen. unfold request.
    rewrite (get_product_invalid regex_search d product_id
               (ObjectId_parse_length product_id Hlen)).
    reflexivity.
  - intros Hparse. unfold request.
    rewrite (get_product_invalid regex_search d product_id Hparse). reflexivity.
  - intros bs Hparse. split; [|split].
    + intros Hup. unfold request.
      rewrite (get_product_down regex_search d product_id bs Hup Hparse).
      reflexivity.
    + intros Hup Hnone. unfold request.
      rewrite (get_product_find regex_search d product_id bs Hup Hparse), Hnone.
      reflexivity.
    + intros doc Hup Hfind.
      pose proof (find_some _ _ Hfind) as [Hin _].
      split; [exact Hin|]. split.
      * intros Hshape. unfold request.
        rewrite (get_product_find regex_search d product_id bs Hup Hparse), Hfind.
        rewrite (serialize_product_to_product doc (Some d) Hshape).
        reflexivity.
      * intros Hbad. unfold request.
        rewrite (get_product_find regex_search d product_id bs Hup Hparse), Hfind.
        destruct (serialize_product_unserializable doc (Some d) Hbad) as [errs ->].
        reflexivity.
Qed.

Lemma get_product_cases_witness :
  request (get_product substring_search "42") (Some one_product_store)
  = (Failure 400 (DetailText "Invalid product id"), Some one_product_store) /\
  request (get_product substring_search "zzzzzzzzzzzzzzzzzzzzzzzz") (Some one_product_store)
  = (Failure 400 (DetailText "Invalid product id"), Some one_product_store) /\
  request (get_product substring_search "000000000000000000000001") (Some silent_store)
  = (Failure 500 (DetailText "Internal Server Error"), Some silent_store) /\
  request (get_product substring_search "000000000000000000000002") (Some one_product_store)
  = (Failure 404 (DetailText "Product not found"), Some one_product_store) /\
  request (get_product substring_search "00 00 00 00 00 00 00 01 ") (Some one_product_store)
  = (Failure 404 (DetailText "Product not found"), Some one_product_store) /\
  request (get_product substring_search "000000000000000000000001") (Some one_product_store)
  = (Success (to_product headphones), Some one_product_store) /\
  request (get_product substring_search "000000000000000000000005") (Some broken_store)
  = (Failure 500 (DetailText "Internal Server Error"), Some broken_store).
Proof.
  split; [|split; [|split; [|split; [|split; [|split]]]]].
  - destruct (get_product_cases substring_search "42") as (_ & H).
    destruct (H one_product_store) as (Hlen & _). apply Hlen. discriminate.
  - destruct (get_product_cases substring_search "zzzzzzzzzzzzzzzzzzzzzzzz") as (_ & H).
    destruct (H one_product_store) as (_ & Hparse & _). apply Hparse. reflexivity.
  - destruct (get_product_cases substring_search "000000000000000000000001") as (_ & H).
    destruct (H silent_store) as (_ & _ & Hbs).
    destruct (Hbs [0; 0; 0; 0; 0; 0; 0; 0; 0; 0; 0; 1]%N eq_refl) as (Hdown & _).
    apply Hdown. reflexivity.
  - destruct (get_product_cases substring_search "000000000000000000000002") as (_ & H).
    destruct (H one_product_store) as (_ & _ & Hbs).
    destruct (Hbs [0; 0; 0; 0; 0; 0; 0; 0; 0; 0; 0; 2]%N eq_refl) as (_ & Hnone & _).
    apply Hnone; reflexivity.
  - destruct (get_product_cases substring_search "00 00 00 00 00 00 00 01 ") as (_ & H).
    destruct (H one_product_store) as (_ & _ & Hbs).
    destruct (Hbs [0; 0; 0; 0; 0; 0; 0; 1]%N eq_refl) as (_ & Hnone & _).
    apply Hnone; reflexivity.
  - destruct (get_product_cases substring_search "000000000000000000000001") as (_ & H).
    destruct (H one_product_store) as (_ & _ & Hbs).
    destruct (Hbs [0; 0; 0; 0; 0; 0; 0; 0; 0; 0; 0; 1]%N eq_refl) as (_ & _ & Hdoc).
    destruct (Hdoc headphones eq_refl eq_refl) as (_ & Hshape & _).
    apply Hshape. reflexivity.
  - destruct (get_product_cases substring_search "000000000000000000000005") as (_ & H).
    destruct (H broken_store) as (_ & _ & Hbs).
    destruct (Hbs [0; 0; 0; 0; 0; 0; 0; 0; 0; 0; 0; 5]%N eq_refl) as (_ & _ & Hdoc).
    destruct (Hdoc untitled_document eq_refl eq_refl) as (_ & _ & Hbad).
    apply Hbad. reflexivity.
Defined.

(** C9 (fetching leaves the store alone).  Whatever the id and the store,
    [GET /api/products/{id}] ends in the store it started from; so do in
    particular the requests answered with 404 and with 400. *)
Theorem get_product_readonly
    (regex_search : string -> string -> string -> bool)
    (product_id : string) (w : World) :
  snd (request (get_product regex_search product_id) w) = w.
Proof.
  unfold request, get_product, bind, get_db.
  destruct w as [d|]; [|reflexivity].
  destruct (ObjectId_parse product_id) as [oid|]; [|reflexivity].
  unfold find_one, driver. destruct (server_up d); [|reflexivity].
  unfold ret. destruct (List.find _ _) as [doc|]; [|reflexivity].
  unfold serialize_product, ProductOut_new.
  destruct (ProductIn_validate (product_kwargs doc)); reflexivity.
Qed.

(** ** Seeding *)

Lemma samples_model_dump : samples = map model_dump sample_products.
Proof. vm_compute. reflexivity. Qed.

Lemma create_document_up (d : Database) (name : string) (data : gmap string value) :
  server_up d = true ->
  create_document name data (Some d)
  = (Return (ObjectId_str (next_oid d)),
     Some (mkDatabase (server_up d)
             (<[name := (collection d name ++ [mkDocument (next_oid d) data])%list]>
                (collections d))
             (N.succ (next_oid d)))).
Proof.
  intros Hup. unfold create_document, bind, get_db, insert_one. rewrite Hup.
  reflexivity.
Qed.

(** The loop of [seed_products] appends one document per sample, in order,
    under consecutive identifiers. *)
Lemma for_each_create (l : list (gmap string value)) (d : Database) :
  server_up d = true ->
  exists d' : Database,
    for_each l (fun s => create_document "product" s ;;; ret tt) (Some d)
    = (Return tt, Some d') /\
    server_up d' = true /\
    next_oid d' = (next_oid d + N.of_nat (length l))%N /\
    collection d' "product"
    = (collection d "product"
       ++ imap (fun i s => mkDocument (next_oid d + N.of_nat i)%N s) l)%list.
Proof.
  revert d. induction l as [|s l IH]; intros d Hup.
  - exists d. simpl. rewrite N.add_0_r, app_nil_r. auto.
  - set (d1 := mkDatabase (server_up d)
                 (<["product" := (collection d "product" ++ [mkDocument (next_oid d) s])%list]>
                    (collections d))
                 (N.succ (next_oid d))).
    destruct (IH d1 Hup) as (d' & Hrun & Hup' & Hnext & Hcoll).
    exists d'. split; [|split; [exact Hup'|split]].
    + cbn [for_each]. unfold bind at 1. unfold bind at 1.
      rewrite (create_document_up d "product" s Hup). fold d1.
      unfold ret at 1. exact Hrun.
    + rewrite Hnext. simpl. lia.
    + rewrite Hcoll. unfold d1 at 1. rewrite collection_insert.
      rewrite imap_cons, <- app_assoc. simpl. rewrite N.add_0_r.
      do 2 f_equal. apply imap_ext. intros i x _. simpl. f_equal. lia.
Qed.

Lemma mapM_serialize_dump (f : nat -> ObjectId) (ps : list ProductIn) (w : World) :
  Forall (fun p => Qle_bool 0 (price p) = true /\ to_double (price p) = price p) ps ->
  mapM serialize_product (imap (fun i p => mkDocument (f i) (model_dump p)) ps) w
  = (Return (imap (fun i p => mkProductOut (ObjectId_str (f i)) p) ps), w).
Proof.
  revert f. induction ps as [|p ps IH]; intros f Hps; [reflexivity|].
  apply Forall_cons in Hps as [[Hp Hd] Hps].
  rewrite !imap_cons. cbn [mapM]. unfold bind at 1.
  rewrite serialize_product_model_dump by assumption.
  unfold bind at 1. pose proof (IH (f ∘ S) Hps) as IH'.
  unfold compose in *. rewrite IH'. reflexivity.
Qed.

(** The prices of the samples are doubles no less than zero. *)
Lemma sample_products_prices :
  Forall (fun p => Qle_bool 0 (price p) = true /\ to_double (price p) = price p)
    sample_products.
Proof. repeat constructor. Qed.

Lemma bind_Return {A B} (m : M A) (k : A -> M B) (w w' : World) (a : A) :
  m w = (Return a, w') -> bind m k w = k a w'.
Proof. intros H. unfold bind. rewrite H. reflexivity. Qed.

Lemma try_except_Return {A} (body : M A) (handler : exn -> M A)
    (w w' : World) (a : A) :
  body w = (Return a, w') -> try_except body handler w = (Return a, w').
Proof. intros H. unfold try_except. rewrite H. reflexivity. Qed.

Lemma seed_products_skip (d : Database) :
  server_up d = false \/ collection d "product" <> [] ->
  seed_products (Some d) = (Return tt, Some d).
Proof.
  intros H. unfold seed_products, bind, get_db, try_except, count_documents, driver.
  destruct (server_up d); [|reflexivity].
  destruct H as [H|H]; [discriminate|].
  destruct (collection d "product"); [congruence|reflexivity].
Qed.

Lemma seed_products_empty (d : Database) :
  server_up d = true ->
  collection d "product" = [] ->
  exists d' : Database,
    seed_products (Some d) = (Return tt, Some d') /\
    server_up d' = true /\
    next_oid d' = (next_oid d + 4)%N /\
    collection d' "product" = seeded_documents (next_oid d).
Proof.
  intros Hup Hempty.
  destruct (for_each_create samples d Hup) as (d' & Hrun & Hup' & Hnext & Hcoll).
  exists d'. rewrite Hempty in Hcoll. simpl in Hcoll.
  split; [|split; [exact Hup'|split; [exact Hnext|exact Hcoll]]].
  unfold seed_products.
  rewrite (bind_Return get_db _ (Some d) (Some d) (Some d) eq_refl).
  apply try_except_Return.
  rewrite (bind_Return (count_documents d "product") _ (Some d) (Some d) 0).
  - exact Hrun.
  - unfold count_documents, driver. rewrite Hup, Hempty. reflexivity.
Qed.

(** C7 (seeding).  [seed_products] never raises: a store error is
    swallowed.  It leaves the store as it is when there is none, when the
    store does not answer and when the product collection is not empty.  On a
    store that answers and whose product collection is empty it inserts the
    four sample products, in order, and [GET /api/products] then returns
    these four products in that order: Smartphone X200 at 699 in Phones,
    Noise-Canceling Headphones at 199 in Audio, 4K Ultra HD TV 55 inch at 499
    in TVs and Gaming Laptop G15 at 1499 in Computers. *)
Theorem seed_products_spec
    (regex_search : string -> string -> string -> bool)
    (regex_valid : string -> string -> bool) (d : Database) :
  seed_products None = (Return tt, None) /\
  (exists w' : World, seed_products (Some d) = (Return tt, w')) /\
  (collection d "product" <> [] -> seed_products (Some d) = (Return tt, Some d)) /\
  (server_up d = false -> seed_products (Some d) = (Return tt, Some d)) /\
  (server_up d = true ->
   collection d "product" = [] ->
   exists d' : Database,
     seed_products (Some d) = (Return tt, Some d') /\
     collection d' "product" = seeded_documents (next_oid d) /\
     map fields (collection d' "product") = samples /\
     request (list_products regex_search regex_valid None None None None) (Some d')
     = (Success (seeded_products (next_oid d)), Some d')) /\
  map (fun p : ProductIn => (title p, price p, category p)) sample_products
  = [ ("Smartphone X200", 699%Q, "Phones");
      ("Noise-Canceling Headphones", 199%Q, "Audio");
      ("4K Ultra HD TV 55" ++ dquote, 499%Q, "TVs");
      ("Gaming Laptop G15", 1499%Q, "Computers") ] /\
  forall n : ObjectId, map product (seeded_products n) = sample_products.
Proof.
  split; [reflexivity|].
  split.
  { destruct (server_up d) eqn:Hup.
    - destruct (collection d "product") eqn:Hcoll.
      + destruct (seed_products_empty d Hup Hcoll) as (d' & Hrun & _). eauto.
      + exists (Some d). apply seed_products_skip. right. congruence.
    - exists (Some d). apply seed_products_skip. auto. }
  split; [intros H; apply seed_products_skip; auto|].
  split; [intros H; apply seed_products_skip; auto|].
  split; [|split; [reflexivity|intros n; reflexivity]].
  intros Hup Hempty.
  destruct (seed_products_empty d Hup Hempty) as (d' & Hrun & Hup' & Hnext & Hcoll).
  exists d'. split; [exact Hrun|]. split; [exact Hcoll|].
  split; [rewrite Hcoll; reflexivity|].
  unfold request, list_products, bind, get_db, get_documents, bind, get_db.
  unfold find. rewrite Hup'.
  change (list_products_filter None None None None) with (∅ : gmap string cond).
  rewrite filter_valid_empty. unfold ret at 1.
  rewrite filter_matches_all, Hcoll.
  unfold seeded_documents. rewrite samples_model_dump, imap_fmap.
  unfold compose.
  rewrite (mapM_serialize_dump (fun i => (next_oid d + N.of_nat i)%N)
             sample_products (Some d') sample_products_prices).
  reflexivity.
Qed.

Lemma seed_products_spec_witness :
  exists d' : Database,
    seed_products (Some empty_store) = (Return tt, Some d') /\
    collection d' "product" = seeded_documents (next_oid empty_store) /\
    map fields (collection d' "product") = samples /\
    request (list_products substring_search substring_valid None None None None)
      (Some d')
    = (Success (seeded_products (next_oid empty_store)), Some d').
Proof.
  apply (proj1 (proj2 (proj2 (proj2 (proj2
           (seed_products_spec substring_search substring_valid empty_store))))));
    reflexivity.
Defined.

(** ** Categories *)

#[global] Instance string_le_total : Total string_le.
Proof. intros a b. apply String.leb_total. Qed.

#[global] Instance string_le_trans : Transitive string_le.
Proof.
  unfold string_le, String.leb. intros a.
  induction a as [|x a IH]; intros [|y b] [|z c]; simpl; try easy.
  unfold Ascii.compare.
  destruct (N.compare_spec (N_of_ascii x) (N_of_ascii y)) as [E1|E1|E1],
    (N.compare_spec (N_of_ascii y) (N_of_ascii z)) as [E2|E2|E2],
    (N.compare_spec (N_of_ascii x) (N_of_ascii z)) as [E3|E3|E3];
    try lia; try easy.
  apply IH.
Qed.

#[global] Instance string_le_antisymm : AntiSymm (=) string_le.
Proof. intros a b. apply String.leb_antisym. Qed.

Lemma products_shaped_categories (d : Database) :
  products_shaped d = true -> categories_are_text d = true.
Proof.
  unfold products_shaped, categories_are_text, product_shaped.
  rewrite !forallb_forall. intros H doc Hin. specialize (H doc Hin).
  repeat (apply andb_prop in H as [H ?]).
  destruct (doc_get doc "category") as [[]|]; try discriminate; reflexivity.
Qed.

Lemma elem_of_filter_bool {A} (f : A -> bool) (l : list A) (x : A) :
  x ∈ List.filter f l <-> x ∈ l /\ f x = true.
Proof. rewrite !list_elem_of_In. apply filter_In. Qed.

Lemma NoDup_filter_bool {A} (f : A -> bool) (l : list A) :
  NoDup l -> NoDup (List.filter f l).
Proof.
  rewrite !NoDup_ListNoDup. apply List.NoDup_filter.
Qed.

Lemma as_str_Some (v : value) (s : string) : as_str v = Some s <-> v = VStr s.
Proof. destruct v; simpl; split; congruence. Qed.

Lemma NoDup_omap_as_str (l : list value) : NoDup l -> NoDup (omap as_str l).
Proof.
  induction 1 as [|v l Hv Hl IH]; simpl; [constructor|].
  destruct (as_str v) as [s|] eqn:E; [|exact IH].
  constructor; [|exact IH].
  rewrite list_elem_of_omap. intros (v' & Hin & Hs).
  apply as_str_Some in E, Hs. congruence.
Qed.

Lemma list_categories_up (d : Database) :
  server_up d = true ->
  list_categories (Some d)
  = sorted_strs
      (List.filter truthy
         (remove_dups (omap (fun doc => doc_get doc "category") (collection d "product"))))
      (Some d).
Proof.
  intros Hup. unfold list_categories, bind, get_db, distinct, driver.
  rewrite Hup. reflexivity.
Qed.

Lemma list_categories_readonly (w : World) :
  snd (list_categories w) = w.
Proof.
  unfold list_categories, bind, get_db. destruct w as [d|]; [|reflexivity].
  unfold distinct, driver. destruct (server_up d); [|reflexivity].
  unfold ret, sorted_strs.
  destruct (forallb is_str _); [reflexivity|].
  destruct (existsb is_str _); reflexivity.
Qed.

Lemma category_values_text (d : Database) :
  categories_are_text d = true ->
  forallb is_str
    (List.filter truthy
       (remove_dups (omap (fun doc => doc_get doc "category") (collection d "product"))))
  = true.
Proof.
  unfold categories_are_text. rewrite !forallb_forall. intros H v Hv.
  apply list_elem_of_In, elem_of_filter_bool in Hv as [Hv Htruthy].
  apply elem_of_remove_dups, list_elem_of_omap in Hv as (doc & Hin & Hget).
  apply list_elem_of_In in Hin. specialize (H doc Hin). rewrite Hget in H.
  rewrite Htruthy in H. simpl in H. rewrite orb_false_r in H. exact H.
Qed.

(** On a store that answers and whose categories are strings, the handler
    returns the category values that are not empty, each once, in ascending
    order. *)
Lemma list_categories_text (d : Database) :
  server_up d = true ->
  categories_are_text d = true ->
  exists cats : list string,
    request list_categories (Some d) = (Success cats, Some d) /\
    StronglySorted string_le cats /\
    NoDup cats /\
    (forall c : string,
       c ∈ cats <->
       c <> EmptyString /\
       exists doc : Document,
         doc ∈ collection d "product" /\ doc_get doc "category" = Some (VStr c)).
Proof.
  intros Hup Htext.
  set (cs := List.filter truthy
               (remove_dups (omap (fun doc => doc_get doc "category")
                               (collection d "product")))).
  exists (merge_sort string_le (omap as_str cs)).
  split; [|split; [|split]].
  - unfold request. rewrite (list_categories_up d Hup). fold cs.
    unfold sorted_strs. unfold cs at 1. rewrite (category_values_text d Htext).
    reflexivity.
  - apply StronglySorted_merge_sort; apply _.
  - rewrite merge_sort_Permutation. apply NoDup_omap_as_str.
    apply NoDup_filter_bool, NoDup_remove_dups.
  - intros c. rewrite merge_sort_Permutation, list_elem_of_omap. split.
    + intros (v & Hv & Hs). apply as_str_Some in Hs. subst v.
      apply elem_of_filter_bool in Hv as [Hv Htruthy].
      apply elem_of_remove_dups, list_elem_of_omap in Hv as (doc & Hin & Hget).
      split; [|eauto].
      intros ->. discriminate Htruthy.
    + intros (Hne & doc & Hin & Hget). exists (VStr c). split; [|reflexivity].
      apply elem_of_filter_bool. split.
      * apply elem_of_remove_dups, list_elem_of_omap. eauto.
      * simpl. destruct (String.eqb_spec c EmptyString); [contradiction|reflexivity].
Qed.

Lemma forallb_false_In {A} (f : A -> bool) (l : list A) (x : A) :
  In x l -> f x = false -> forallb f l = false.
Proof.
  intros Hin Hx. destruct (forallb f l) eqn:E; [|reflexivity].
  rewrite forallb_forall in E. rewrite (E x Hin) in Hx. discriminate.
Qed.

Lemma forallb_false_exists {A} (f : A -> bool) (l : list A) :
  forallb f l = false -> exists x : A, In x l /\ f x = false.
Proof.
  induction l as [|x l IH]; simpl; [discriminate|].
  destruct (f x) eqn:E; simpl.
  - intros H. destruct (IH H) as (y & Hin & Hy). eauto.
  - intros _. eauto.
Qed.

(** A document whose category is a truthy value other than a string makes
    the handler fail, on a store that answers. *)
Lemma list_categories_not_text (d : Database) (doc : Document) (v : value) :
  server_up d = true ->
  In doc (collection d "product") ->
  doc_get doc "category" = Some v ->
  truthy v = true ->
  is_str v = false ->
  request list_categories (Some d)
  = (Failure 500 (DetailText "Internal Server Error"), Some d).
Proof.
  intros Hup Hin Hget Htruthy Hstr. unfold request.
  rewrite (list_categories_up d Hup). unfold sorted_strs.
  rewrite (forallb_false_In is_str _ v).
  - destruct (existsb is_str _); reflexivity.
  - apply filter_In. split; [|exact Htruthy].
    apply list_elem_of_In, elem_of_remove_dups, list_elem_of_omap.
    exists doc. split; [apply list_elem_of_In, Hin|exact Hget].
  - exact Hstr.
Qed.

(** On the headphones store when it does not answer, and on a store with a
    category that is the number 3, the handler answers with 500 and returns
    no list of categories. *)
Lemma list_categories_fails :
  request list_categories (Some silent_store)
  = (Failure 500 (DetailText "Internal Server Error"), Some silent_store) /\
  request list_categories (Some numbered_store)
  = (Failure 500 (DetailText "Internal Server Error"), Some numbered_store) /\
  doc_get headphones "category" = Some (VStr "Audio") /\
  In headphones (collection silent_store "product") /\
  In headphones (collection numbered_store "product").
Proof. repeat split; left; reflexivity. Qed.

(** C8 (categories), as the handler has it.  Without a configured store
    [GET /api/categories] returns the empty list.  With a configured store
    that does not answer, and with one in which the category of some
    document is a truthy value that is not a string, it answers with 500.
    On every other store, that is one that answers and whose categories are
    strings, it returns the category values of the product collection that
    are not empty, each once, in ascending order of the strings compared
    character code by character code.  It never changes the store, and
    calling it again on the store it leaves gives the same response, for
    every store. *)
Theorem list_categories_every_store :
  request list_categories None = (Success [], None) /\
  (forall d : Database,
     (server_up d = false ->
      request list_categories (Some d)
      = (Failure 500 (DetailText "Internal Server Error"), Some d)) /\
     (server_up d = true ->
      categories_are_text d = false ->
      request list_categories (Some d)
      = (Failure 500 (DetailText "Internal Server Error"), Some d)) /\
     (server_up d = true ->
      categories_are_text d = true ->
      exists cats : list string,
        request list_categories (Some d) = (Success cats, Some d) /\
        StronglySorted string_le cats /\
        NoDup cats /\
        (forall c : string,
           c ∈ cats <->
           c <> EmptyString /\
           exists doc : Document,
             doc ∈ collection d "product" /\ doc_get doc "category" = Some (VStr c)))) /\
  (forall w : World,
     snd (request list_categories w) = w /\
     request list_categories (snd (request list_categories w))
     = request list_categories w).
Proof.
  split; [reflexivity|]. split.
  - intros d. split; [|split].
    + intros Hup. unfold request, list_categories, bind, get_db, distinct, driver.
      rewrite Hup. reflexivity.
    + intros Hup Htext. unfold categories_are_text in Htext.
      apply forallb_false_exists in Htext as (doc & Hin & Hdoc).
      destruct (doc_get doc "category") as [v|] eqn:Hget; [|discriminate].
      apply orb_false_elim in Hdoc as [Hstr Htruthy].
      apply negb_false_iff in Htruthy.
      exact (list_categories_not_text d doc v Hup Hin Hget Htruthy Hstr).
    + apply list_categories_text.
  - intros w. unfold request.
    pose proof (list_categories_readonly w) as Hw.
    destruct (list_categories w) as [o w'] eqn:E. simpl in Hw. subst w'.
    simpl. rewrite E. auto.
Qed.

Lemma list_categories_every_store_witness :
  (exists cats : list string,
     request list_categories (Some two_category_store)
     = (Success cats, Some two_category_store) /\
     StronglySorted string_le cats /\
     NoDup cats /\
     (forall c : string,
        c ∈ cats <->
        c <> EmptyString /\
        exists doc : Document,
          doc ∈ collection two_category_store "product"
          /\ doc_get doc "category" = Some (VStr c))) /\
  request list_categories (Some unreachable_store)
  = (Failure 500 (DetailText "Internal Server Error"), Some unreachable_store) /\
  request list_categories (Some numbered_store)
  = (Failure 500 (DetailText "Internal Server Error"), Some numbered_store).
Proof.
  split; [|split].
  - apply (proj2 (proj2 (proj1 (proj2 list_categories_every_store) two_category_store)));
      reflexivity.
  - apply (proj1 (proj1 (proj2 list_categories_every_store) unreachable_store)).
    reflexivity.
  - apply (proj1 (proj2 (proj1 (proj2 list_categories_every_store)
                           numbered_store)));
      reflexivity.
Defined.

Example list_categories_two_category_store :
  fst (request list_categories (Some two_category_store)) = Success ["Audio"; "TVs"].
Proof. reflexivity. Qed.

(** ** Empty query parameters *)

(** C10 (empty strings in the query).  An empty [q] or an empty [category]
    is treated as an absent one: the handler tests truthiness.  The filter
    built with the empty string equals the filter built without the
    parameter, so it has no condition on the title, respectively on the
    category, and the handler behaves the same. *)
Theorem list_products_filter_empty_string
    (regex_search : string -> string -> string -> bool)
    (regex_valid : string -> string -> bool)
    (q category : option string) (min_price max_price : option Q) :
  list_products_filter (Some EmptyString) category min_price max_price
  = list_products_filter None category min_price max_price /\
  list_products_filter q (Some EmptyString) min_price max_price
  = list_products_filter q None min_price max_price /\
  list_products_filter (Some EmptyString) category min_price max_price !! "title" = None /\
  list_products_filter q (Some EmptyString) min_price max_price !! "category" = None /\
  list_products regex_search regex_valid (Some EmptyString) category min_price max_price
  = list_products regex_search regex_valid None category min_price max_price /\
  list_products regex_search regex_valid q (Some EmptyString) min_price max_price
  = list_products regex_search regex_valid q None min_price max_price.
Proof.
  assert (Htitle : list_products_filter None category min_price max_price !! "title" = None).
  { unfold list_products_filter.
    destruct category as [c|], min_price, max_price; simpl;
      try destruct (negb (String.eqb c EmptyString)); reflexivity. }
  assert (Hcat : list_products_filter q None min_price max_price !! "category" = None).
  { unfold list_products_filter.
    destruct q as [pat|], min_price, max_price; simpl;
      try destruct (negb (String.eqb pat EmptyString)); reflexivity. }
  repeat split; assumption || reflexivity.
Qed.

(** ** The store invariants are kept

    The two writers of the system, [POST /api/products] and the seeding,
    keep the product collection in the product shape and its identifiers
    below the counter. *)

Lemma product_shaped_model_dump (o : ObjectId) (p : ProductIn) :
  Qle_bool 0 (price p) = true ->
  product_shaped (mkDocument o (model_dump p)) = true.
Proof.
  intros Hp. destruct p as [t d q c s i]. simpl in Hp.
  unfold product_shaped.
  change (doc_get (mkDocument o (model_dump (mkProductIn t d q c s i))) "title")
    with (Some (VStr t)).
  change (doc_get (mkDocument o (model_dump (mkProductIn t d q c s i))) "description")
    with (Some (opt_value d)).
  change (doc_get (mkDocument o (model_dump (mkProductIn t d q c s i))) "price")
    with (Some (VNum q)).
  change (doc_get (mkDocument o (model_dump (mkProductIn t d q c s i))) "category")
    with (Some (VStr c)).
  change (doc_get (mkDocument o (model_dump (mkProductIn t d q c s i))) "in_stock")
    with (Some (VBool s)).
  change (doc_get (mkDocument o (model_dump (mkProductIn t d q c s i))) "image")
    with (Some (opt_value i)).
  cbv beta iota. rewrite Hp. destruct d, i; reflexivity.
Qed.

Lemma insert_keeps_invariants (d : Database) (data : gmap string value) :
  product_shaped (mkDocument (next_oid d) data) = true ->
  products_shaped d = true ->
  ids_below d = true ->
  let d' := mkDatabase (server_up d)
              (<["product" := (collection d "product"
                               ++ [mkDocument (next_oid d) data])%list]> (collections d))
              (N.succ (next_oid d)) in
  products_shaped d' = true /\ ids_below d' = true.
Proof.
  intros Hdoc Hshape Hids d'.
  unfold products_shaped, ids_below, d'. rewrite !collection_insert.
  rewrite !forallb_app. cbn [forallb next_oid _id].
  unfold products_shaped in Hshape. rewrite Hshape, Hdoc.
  split; [reflexivity|].
  rewrite andb_true_r. apply andb_true_intro. split.
  - unfold ids_below in Hids. rewrite forallb_forall in Hids |- *.
    intros x Hx. specialize (Hids x Hx). apply N.ltb_lt in Hids. apply N.ltb_lt. lia.
  - apply N.ltb_lt. lia.
Qed.

Lemma post_product_keeps_invariants
    (ProductSchema : gmap string value -> list FieldError)
    (body : gmap string value) (d : Database) :
  products_shaped d = true ->
  ids_below d = true ->
  exists d' : Database,
    snd (request (post_product ProductSchema body) (Some d)) = Some d' /\
    products_shaped d' = true /\ ids_below d' = true.
Proof.
  intros Hshape Hids. unfold request, post_product.
  destruct (ProductIn_validate body) as [errs|payload] eqn:Hvalid.
  { exists d. auto. }
  pose proof (ProductIn_validate_fields _ _ Hvalid) as (_ & _ & _ & Hge & _).
  unfold create_product, ProductSchema_new.
  destruct (ProductSchema (model_dump payload)) as [|e errs].
  2: { exists d. auto. }
  destruct (server_up d) eqn:Hup.
  - rewrite (bind_Return (ret tt) _ (Some d) (Some d) tt eq_refl).
    rewrite (bind_Return _ _ _ _ _ (create_document_up d "product" _ Hup)).
    eexists. split; [reflexivity|].
    apply insert_keeps_invariants; auto using product_shaped_model_dump.
  - exists d. split; [|auto].
    unfold bind, ret, create_document, bind, get_db, insert_one. rewrite Hup.
    reflexivity.
Qed.

Lemma for_each_create_keeps_invariants (l : list (gmap string value)) (d : Database) :
  server_up d = true ->
  Forall (fun s => forall o, product_shaped (mkDocument o s) = true) l ->
  products_shaped d = true ->
  ids_below d = true ->
  exists d' : Database,
    for_each l (fun s => create_document "product" s ;;; ret tt) (Some d)
    = (Return tt, Some d') /\
    products_shaped d' = true /\ ids_below d' = true.
Proof.
  intros Hup Hl. revert d Hup.
  induction Hl as [|s l Hs Hl IH]; intros d Hup Hshape Hids.
  - exists d. auto.
  - destruct (insert_keeps_invariants d s (Hs _) Hshape Hids) as [Hshape1 Hids1].
    set (d1 := mkDatabase (server_up d)
                 (<["product" := (collection d "product"
                                  ++ [mkDocument (next_oid d) s])%list]> (collections d))
                 (N.succ (next_oid d))) in *.
    destruct (IH d1 Hup Hshape1 Hids1) as (d' & Hrun & Hinv).
    exists d'. split; [|exact Hinv].
    cbn [for_each]. unfold bind at 1. unfold bind at 1.
    rewrite (create_document_up d "product" s Hup). fold d1.
    unfold ret at 1. exact Hrun.
Qed.

Lemma seed_products_keeps_invariants (d : Database) :
  products_shaped d = true ->
  ids_below d = true ->
  exists d' : Database,
    seed_products (Some d) = (Return tt, Some d') /\
    products_shaped d' = true /\ ids_below d' = true.
Proof.
  intros Hshape Hids.
  destruct (server_up d) eqn:Hup.
  - destruct (collection d "product") as [|x l] eqn:Hcoll.
    + assert (Hsamples : Forall (fun s => forall o, product_shaped (mkDocument o s) = true)
                            samples)
        by (repeat constructor).
      destruct (for_each_create_keeps_invariants samples d Hup Hsamples Hshape Hids)
        as (d' & Hrun & Hinv).
      exists d'. split; [|exact Hinv].
      unfold seed_products.
      rewrite (bind_Return get_db _ (Some d) (Some d) (Some d) eq_refl).
      apply try_except_Return.
      rewrite (bind_Return (count_documents d "product") _ (Some d) (Some d) 0).
      * exact Hrun.
      * unfold count_documents, driver. rewrite Hup, Hcoll. reflexivity.
    + exists d. split; [|auto]. apply seed_products_skip. right. congruence.
  - exists d. split; [|auto]. apply seed_products_skip. auto.
Qed.

(** The scenario of the specification: after seeding an empty store the
    categories are Audio, Computers, Phones and TVs. *)
Example seeded_categories :
  fst (request list_categories (snd (seed_products (Some empty_store))))
  = Success ["Audio"; "Computers"; "Phones"; "TVs"].
Proof. reflexivity. Qed.

(** * Further properties of the handlers *)

(** ** Serialization of stored documents *)

(** X1 (defaults of serialization).  For a stored document of the product
    shape, [serialize_product] gives [in_stock] true when the document has no
    [in_stock] key, and no description, respectively no image, when the key is
    missing or holds [None]; the identifier is the 24-digit form of the
    document's [_id]. *)
Theorem serialize_product_defaults (doc : Document) (w : World) :
  product_shaped doc = true ->
  exists out : ProductOut,
    serialize_product doc w = (Return out, w) /\
    id out = ObjectId_str (_id doc) /\
    String.length (id out) = 24 /\
    (doc_get doc "in_stock" = None -> in_stock out = true) /\
    (doc_get doc "description" = None \/ doc_get doc "description" = Some VNone ->
     description out = None) /\
    (doc_get doc "image" = None \/ doc_get doc "image" = Some VNone ->
     image out = None).
Proof.
  intros Hshape. exists (to_product doc).
  split; [apply serialize_product_to_product, Hshape|].
  split; [reflexivity|]. split; [apply length_to_hex|].
  unfold to_product. simpl. repeat split.
  - intros ->. reflexivity.
  - intros [-> | ->]; reflexivity.
  - intros [-> | ->]; reflexivity.
Qed.

Lemma serialize_product_defaults_witness :
  exists out : ProductOut,
    serialize_product
      (mkDocument 2%N {[ "title" := VStr "Buds"; "price" := VNum 49; "category" := VStr "Audio" ]})
      None = (Return out, None) /\
    id out = ObjectId_str 2%N /\
    String.length (id out) = 24 /\
    (doc_get (mkDocument 2%N {[ "title" := VStr "Buds"; "price" := VNum 49; "category" := VStr "Audio" ]})
       "in_stock" = None -> in_stock out = true) /\
    (doc_get (mkDocument 2%N {[ "title" := VStr "Buds"; "price" := VNum 49; "category" := VStr "Audio" ]})
       "description" = None \/
     doc_get (mkDocument 2%N {[ "title" := VStr "Buds"; "price" := VNum 49; "category" := VStr "Audio" ]})
       "description" = Some VNone ->
     description out = None) /\
    (doc_get (mkDocument 2%N {[ "title" := VStr "Buds"; "price" := VNum 49; "category" := VStr "Audio" ]})
       "image" = None \/
     doc_get (mkDocument 2%N {[ "title" := VStr "Buds"; "price" := VNum 49; "category" := VStr "Audio" ]})
       "image" = Some VNone ->
     image out = None).
Proof.
  apply (serialize_product_defaults
           (mkDocument 2%N {[ "title" := VStr "Buds"; "price" := VNum 49; "category" := VStr "Audio" ]})
           None).
  reflexivity.
Defined.

Lemma mapM_serialize_raise (l : list Document) (doc : Document) (w : World) :
  In doc l ->
  unserializable doc = true ->
  exists errs : list FieldError,
    mapM serialize_product l w = (Raise (ValidationError errs), w).
Proof.
  intros Hin Hbad. induction l as [|x l IH]; [destruct Hin|].
  cbn [mapM]. unfold bind at 1.
  destruct (serialize_product_outcome x w) as [[out Hout]|[errs Herrs]].
  - rewrite Hout. destruct Hin as [->|Hin].
    + destruct (serialize_product_unserializable doc w Hbad) as [errs Herrs].
      congruence.
    + destruct (IH Hin) as [errs Herrs]. unfold bind at 1. rewrite Herrs. eauto.
  - rewrite Herrs. eauto.
Qed.

Lemma mapM_serialize_to_product (l : list Document) (w : World) :
  forallb product_shaped l = true ->
  mapM serialize_product l w = (Return (map to_product l), w).
Proof.
  induction l as [|x l IH]; intros Hl; [reflexivity|].
  simpl in Hl. apply andb_prop in Hl as [Hx Hl].
  cbn [mapM]. unfold bind at 1. rewrite (serialize_product_to_product x w Hx).
  unfold bind at 1. rewrite (IH Hl). reflexivity.
Qed.

Lemma list_products_up (regex_search : string -> string -> string -> bool)
    (regex_valid : string -> string -> bool)
    (q cat : option string) (min_price max_price : option Q) (d : Database) :
  server_up d = true ->
  list_products regex_search regex_valid q cat min_price max_price (Some d)
  = if pattern_accepted regex_valid q
    then mapM serialize_product
           (List.filter (doc_matches regex_search
                           (list_products_filter q cat min_price max_price))
              (collection d "product"))
           (Some d)
    else (Raise OperationFailure, Some d).
Proof.
  intros Hup. unfold list_products.
  rewrite (bind_Return get_db _ (Some d) (Some d) (Some d) eq_refl).
  unfold bind, get_documents, bind, get_db, find.
  rewrite Hup, list_products_filter_valid. fold (pattern_accepted regex_valid q).
  destruct (pattern_accepted regex_valid q); reflexivity.
Qed.

(** X2 (a document that does not serialize).  [serialize_product] raises a
    validation error for a stored document whose title or category is missing
    or not a string, or whose price is missing, [None] or below zero; and
    [GET /api/products] on a store that answers is then answered with 500,
    with no product at all, as soon as one such document matches the filter. *)
Theorem list_products_bad_document
    (regex_search : string -> string -> string -> bool)
    (regex_valid : string -> string -> bool)
    (q cat : option string) (min_price max_price : option Q)
    (d : Database) (doc : Document) :
  server_up d = true ->
  In doc (collection d "product") ->
  doc_matches regex_search (list_products_filter q cat min_price max_price) doc = true ->
  unserializable doc = true ->
  (exists errs : list FieldError,
     serialize_product doc (Some d) = (Raise (ValidationError errs), Some d)) /\
  request (list_products regex_search regex_valid q cat min_price max_price) (Some d)
  = (Failure 500 (DetailText "Internal Server Error"), Some d).
Proof.
  intros Hup Hin Hmatch Hbad.
  split; [apply serialize_product_unserializable, Hbad|].
  unfold request.
  rewrite (list_products_up regex_search regex_valid q cat min_price max_price d Hup).
  destruct (pattern_accepted regex_valid q); [|reflexivity].
  destruct (mapM_serialize_raise
              (List.filter (doc_matches regex_search
                              (list_products_filter q cat min_price max_price))
                 (collection d "product")) doc (Some d)) as [errs Herrs].
  - apply filter_In. auto.
  - exact Hbad.
  - rewrite Herrs. reflexivity.
Qed.

(** ** Listing with a filter *)

Lemma doc_matches_list_products_filter
    (regex_search : string -> string -> string -> bool)
    (q cat : option string) (min_price max_price : option Q) (doc : Document) :
  doc_matches regex_search (list_products_filter q cat min_price max_price) doc
  = (if truthy_str q then title_matches regex_search (default EmptyString q) doc else true)
    && (if truthy_str cat then category_is (default EmptyString cat) doc else true)
    && from_option (fun lo => price_at_least lo doc) true min_price
    && from_option (fun hi => price_at_most hi doc) true max_price.
Proof.
  unfold list_products_filter. cbv zeta.
  set (base := match cat with
               | Some c =>
                   if truthy (VStr c)
                   then <["category" := CEq (VStr c)]>
                          (match q with
                           | Some pat =>
                               if truthy (VStr pat)
                               then <["title" := COps {[ "$regex" := VStr pat;
                                                         "$options" := VStr "i" ]}]>
                                      (∅ : gmap string cond)
                               else ∅
                           | None => ∅
                           end)
                   else match q with
                        | Some pat =>
                            if truthy (VStr pat)
                            then <["title" := COps {[ "$regex" := VStr pat;
                                                      "$options" := VStr "i" ]}]>
                                   (∅ : gmap string cond)
                            else ∅
                        | None => ∅
                        end
               | None =>
                   match q with
                   | Some pat =>
                       if truthy (VStr pat)
                       then <["title" := COps {[ "$regex" := VStr pat;
                                                 "$options" := VStr "i" ]}]>
                              (∅ : gmap string cond)
                       else ∅
                   | None => ∅
                   end
               end).
  assert (Hnone : base !! "price" = None).
  { unfold base. destruct q as [pat|], cat as [c|]; simpl truthy;
      repeat match goal with |- context [negb ?b] => destruct (negb b) end;
      reflexivity. }
  assert (Hbase : doc_matches regex_search base doc
                  = (if truthy_str q
                     then title_matches regex_search (default EmptyString q) doc else true)
                    && (if truthy_str cat
                        then category_is (default EmptyString cat) doc else true)).
  { unfold base. destruct q as [pat|], cat as [c|]; simpl truthy; simpl truthy_str;
      simpl default;
      repeat match goal with |- context [negb ?b] => destruct (negb b) end;
      rewrite ?doc_matches_insert by reflexivity;
      rewrite ?doc_matches_empty, ?andb_true_r, ?cond_holds_regex, ?cond_holds_category;
      try reflexivity; apply andb_comm. }
  rewrite <- andb_assoc, <- Hbase.
  rewrite <- (cond_holds_price regex_search min_price max_price doc).
  destruct (bool_decide (is_Some min_price) || bool_decide (is_Some max_price)) eqn:Hb.
  - rewrite doc_matches_insert by exact Hnone. apply andb_comm.
  - apply orb_false_elim in Hb as [Hlo Hhi].
    apply bool_decide_eq_false in Hlo, Hhi.
    destruct min_price; [exfalso; apply Hlo; eauto|].
    destruct max_price; [exfalso; apply Hhi; eauto|].
    unfold cond_holds. cbv zeta. rewrite ops_hold_empty, andb_true_r. reflexivity.
Qed.

Lemma product_matches_to_product
    (regex_search : string -> string -> string -> bool)
    (q cat : option string) (min_price max_price : option Q) (doc : Document) :
  product_shaped doc = true ->
  match doc_get doc "price" with Some (VNum x) => is_double x | _ => true end = true ->
  doc_matches regex_search (list_products_filter q cat min_price max_price) doc
  = product_matches regex_search q cat min_price max_price (to_product doc).
Proof.
  intros Hshape Hdbl. rewrite doc_matches_list_products_filter.
  unfold product_shaped in Hshape.
  repeat (apply andb_prop in Hshape as [Hshape ?]).
  unfold product_matches, title_matches, category_is, price_at_least, price_at_most,
    to_product. simpl.
  destruct (doc_get doc "title") as [[| | |t]|]; try discriminate.
  destruct (doc_get doc "price") as [[| |x|]|]; try discriminate.
  destruct (doc_get doc "category") as [[| | |c]|]; try discriminate.
  rewrite (to_double_is_double x Hdbl). reflexivity.
Qed.

(** On a store that answers and whose documents have the product shape, the
    listing is made of the products of the documents that match the filter,
    in the order of the collection. *)
Lemma list_products_shaped
    (regex_search : string -> string -> string -> bool)
    (regex_valid : string -> string -> bool)
    (q cat : option string) (min_price max_price : option Q) (d : Database) :
  server_up d = true ->
  products_shaped d = true ->
  pattern_accepted regex_valid q = true ->
  list_products regex_search regex_valid q cat min_price max_price (Some d)
  = (Return (map to_product
               (List.filter (doc_matches regex_search
                               (list_products_filter q cat min_price max_price))
                  (collection d "product"))),
     Some d).
Proof.
  intros Hup Hshape Hpat. rewrite (list_products_up _ _ _ _ _ _ _ Hup), Hpat.
  unfold products_shaped in Hshape.
  apply mapM_serialize_to_product.
  rewrite forallb_forall in Hshape |- *. intros doc Hin.
  apply filter_In in Hin as [Hin _]. auto.
Qed.

Lemma list_products_refused
    (regex_search : string -> string -> string -> bool)
    (regex_valid : string -> string -> bool)
    (q cat : option string) (min_price max_price : option Q) (d : Database) :
  server_up d = true ->
  pattern_accepted regex_valid q = false ->
  request (list_products regex_search regex_valid q cat min_price max_price) (Some d)
  = (Failure 500 (DetailText "Internal Server Error"), Some d).
Proof.
  intros Hup Hpat. unfold request.
  rewrite (list_products_up _ _ _ _ _ _ _ Hup), Hpat. reflexivity.
Qed.

Lemma list_products_all
    (regex_search : string -> string -> string -> bool)
    (regex_valid : string -> string -> bool) (d : Database) :
  server_up d = true ->
  products_shaped d = true ->
  request (list_products regex_search regex_valid None None None None) (Some d)
  = (Success (map to_product (collection d "product")), Some d).
Proof.
  intros Hup Hshape. unfold request.
  rewrite (list_products_shaped regex_search regex_valid None None None None
             d Hup Hshape eq_refl).
  change (list_products_filter None None None None) with (∅ : gmap string cond).
  rewrite filter_matches_all. reflexivity.
Qed.

(** X3 (a filtered listing is a selection of the full listing).  On a store
    that answers, whose documents have the product shape and whose prices are
    doubles, [GET /api/products] with parameters is answered with 500 when
    the store refuses the pattern of [q]; otherwise it returns, in the same
    order, exactly those products of the listing without parameters whose
    title matches [q] (when [q] is not empty), whose category is [category]
    (when not empty) and whose price lies within the given bounds; so every
    returned product satisfies all the given conditions at once and none that
    does is left out. *)
Theorem list_products_selects
    (regex_search : string -> string -> string -> bool)
    (regex_valid : string -> string -> bool)
    (q cat : option string) (min_price max_price : option Q) (d : Database) :
  server_up d = true ->
  products_shaped d = true ->
  prices_are_doubles d = true ->
  exists everything : list ProductOut,
    request (list_products regex_search regex_valid None None None None) (Some d)
    = (Success everything, Some d) /\
    request (list_products regex_search regex_valid q cat min_price max_price) (Some d)
    = (if pattern_accepted regex_valid q
       then Success (List.filter (product_matches regex_search q cat min_price max_price)
                       everything)
       else Failure 500 (DetailText "Internal Server Error"),
       Some d) /\
    length everything = length (collection d "product").
Proof.
  intros Hup Hshape Hdbl. exists (map to_product (collection d "product")).
  split; [|split; [|apply length_map]].
  - apply list_products_all; assumption.
  - destruct (pattern_accepted regex_valid q) eqn:Hpat.
    + unfold request. rewrite list_products_shaped by assumption.
      rewrite filter_map_swap. simpl. do 3 f_equal.
      apply filter_ext_in. intros doc Hin.
      unfold products_shaped in Hshape. unfold prices_are_doubles in Hdbl.
      rewrite forallb_forall in Hshape, Hdbl.
      apply product_matches_to_product; auto.
    + apply list_products_refused; assumption.
Qed.

Lemma filter_none {A} (f : A -> bool) (l : list A) :
  (forall x, In x l -> f x = false) -> List.filter f l = [].
Proof.
  induction l as [|x l IH]; intros H; [reflexivity|].
  simpl. rewrite (H x (or_introl eq_refl)). apply IH. intros y Hy. apply H. right. exact Hy.
Qed.

(** X4 (crossed price bounds).  When [min_price] is above [max_price] no
    document can satisfy both bounds: on a store that answers,
    [GET /api/products] returns the empty list, whatever the collection holds
    and whatever the category is, unless the store refuses the pattern of
    [q], in which case the answer is a 500. *)
Theorem list_products_crossed_bounds
    (regex_search : string -> string -> string -> bool)
    (regex_valid : string -> string -> bool)
    (q cat : option string) (lo hi : Q) (d : Database) :
  server_up d = true ->
  (hi < lo)%Q ->
  request (list_products regex_search regex_valid q cat (Some lo) (Some hi)) (Some d)
  = (if pattern_accepted regex_valid q
     then Success []
     else Failure 500 (DetailText "Internal Server Error"),
     Some d).
Proof.
  intros Hup Hcross. unfold request.
  rewrite (list_products_up _ _ _ _ _ _ _ Hup).
  destruct (pattern_accepted regex_valid q); [|reflexivity].
  rewrite filter_none; [reflexivity|].
  intros doc _. rewrite doc_matches_list_products_filter.
  simpl from_option. unfold price_at_least, price_at_most.
  destruct (doc_get doc "price") as [[| |x|]|];
    rewrite ?andb_false_r; try reflexivity.
  destruct (Qle_bool lo x) eqn:E1, (Qle_bool x hi) eqn:E2;
    rewrite ?andb_false_r; try reflexivity.
  apply Qle_bool_iff in E1, E2. exfalso.
  apply (Qlt_not_le _ _ Hcross). apply (Qle_trans _ _ _ E1 E2).
Qed.

Lemma list_products_crossed_bounds_witness :
  request (list_products substring_search substring_valid (Some "phone") None
             (Some 200%Q) (Some 100%Q))
    (Some one_product_store)
  = (Success [], Some one_product_store).
Proof.
  apply (list_products_crossed_bounds substring_search substring_valid
           (Some "phone") None 200 100 one_product_store);
    reflexivity.
Defined.

(** ** The reading endpoints leave the store alone *)

Lemma mapM_serialize_world (l : list Document) (w : World) :
  snd (mapM serialize_product l w) = w.
Proof.
  induction l as [|x l IH]; [reflexivity|].
  cbn [mapM]. unfold bind at 1.
  destruct (serialize_product_outcome x w) as [[out Hout]|[errs Herrs]].
  - rewrite Hout. unfold bind at 1.
    destruct (mapM serialize_product l w) as [[outs|e] w'] eqn:E;
      simpl in IH; subst w'; reflexivity.
  - rewrite Herrs. reflexivity.
Qed.

(** X5 (listing changes nothing).  [GET /api/products] and
    [GET /api/categories] end in the store they started from, for every
    parameter and every store, whether they answer with a list or fail. *)
Theorem list_endpoints_readonly
    (regex_search : string -> string -> string -> bool)
    (regex_valid : string -> string -> bool)
    (q cat : option string) (min_price max_price : option Q) (w : World) :
  snd (request (list_products regex_search regex_valid q cat min_price max_price) w) = w /\
  snd (request list_categories w) = w.
Proof.
  split.
  - unfold request.
    destruct (list_products regex_search regex_valid q cat min_price max_price w)
      as [o w'] eqn:E.
    simpl. destruct w as [d|].
    + unfold list_products, bind, get_db, get_documents, bind, get_db, find in E.
      destruct (server_up d).
      * destruct (filter_valid regex_valid _).
        -- unfold ret at 1 in E.
           pose proof (mapM_serialize_world
                         (List.filter (doc_matches regex_search
                                         (list_products_filter q cat min_price max_price))
                            (collection d "product")) (Some d)) as Hw.
           rewrite E in Hw. exact Hw.
        -- injection E as _ <-. reflexivity.
      * injection E as _ <-. reflexivity.
    + injection E as _ <-. reflexivity.
  - unfold request. pose proof (list_categories_readonly w) as Hw.
    destruct (list_categories w). exact Hw.
Qed.

(** ** Creating a product *)

Lemma collection_insert_ne (d : Database) (name other : string)
    (l : list Document) (n : ObjectId) :
  name <> other ->
  collection (mkDatabase (server_up d) (<[name := l]> (collections d)) n) other
  = collection d other.
Proof.
  intros Hne. unfold collection. simpl. rewrite lookup_insert_ne by exact Hne.
  reflexivity.
Qed.

(** The string forms of two identifiers are the same only when the
    identifiers are. *)
Lemma ObjectId_str_inj (a b : ObjectId) :
  (a < oid_bound)%N -> (b < oid_bound)%N ->
  ObjectId_str a = ObjectId_str b -> a = b.
Proof.
  intros Ha Hb Heq.
  destruct (ObjectId_parse_str a Ha) as (bs & Hpa & _ & Hva).
  destruct (ObjectId_parse_str b Hb) as (bs' & Hpb & _ & Hvb).
  rewrite Heq in Hpa. congruence.
Qed.

(** X6 (what a create request does to the store).  For a body that
    validates against [ProductIn] to some product, on a configured store
    whose identifiers are fresh: when the schema refuses the dump of the
    product, or the store does not answer, [POST /api/products] answers with
    500 and leaves the store exactly as it was; otherwise it returns the
    string form of a new identifier, one that no document of the collection
    has, appends at the end of the product collection one document under
    that identifier whose fields are the dump of the validated product,
    keeps the documents that were there in their order, and does not touch
    any other collection. *)
Theorem post_product_effect
    (ProductSchema : gmap string value -> list FieldError)
    (body : gmap string value) (payload : ProductIn) (d : Database) :
  ProductIn_validate body = inr payload ->
  ids_fresh d = true ->
  (ProductSchema (model_dump payload) <> [] \/ server_up d = false ->
   request (post_product ProductSchema body) (Some d)
   = (Failure 500 (DetailText "Internal Server Error"), Some d)) /\
  (ProductSchema (model_dump payload) = [] ->
   server_up d = true ->
   exists (new_id : string) (d' : Database),
     request (post_product ProductSchema body) (Some d) = (Success new_id, Some d') /\
     new_id = ObjectId_str (next_oid d) /\
     (forall doc : Document,
        In doc (collection d "product") ->
        _id doc <> next_oid d /\ ObjectId_str (_id doc) <> new_id) /\
     collection d' "product"
     = (collection d "product" ++ [mkDocument (next_oid d) (model_dump payload)])%list /\
     (forall name : string, name <> "product" -> collection d' name = collection d name) /\
     next_oid d' = N.succ (next_oid d)).
Proof.
  intros Hvalid Hfresh. unfold request, post_product. rewrite Hvalid.
  unfold create_product, ProductSchema_new. split.
  - intros [Hschema|Hup].
    + destruct (ProductSchema (model_dump payload)); [contradiction|reflexivity].
    + destruct (ProductSchema (model_dump payload)); [|reflexivity].
      unfold bind, ret, create_document, bind, get_db, insert_one. rewrite Hup.
      reflexivity.
  - intros Hschema Hup. rewrite Hschema.
    rewrite (bind_Return (ret tt) _ (Some d) (Some d) tt eq_refl).
    rewrite (bind_Return _ _ _ _ _ (create_document_up d "product" _ Hup)).
    do 2 eexists. split; [reflexivity|]. split; [reflexivity|].
    split; [|split; [apply collection_insert|split; [|reflexivity]]].
    + intros doc Hin.
      apply andb_prop in Hfresh as [Hbelow Hbound]. apply N.ltb_lt in Hbound.
      unfold ids_below in Hbelow. rewrite forallb_forall in Hbelow.
      pose proof (Hbelow doc Hin) as Hlt. apply N.ltb_lt in Hlt.
      split; [lia|].
      intros Heq. apply ObjectId_str_inj in Heq; lia.
    + intros name Hne. apply collection_insert_ne. congruence.
Qed.

Lemma post_product_effect_witness :
  exists (new_id : string) (d' : Database),
    request (post_product accept_all earbuds_body) (Some one_product_store)
    = (Success new_id, Some d') /\
    new_id = ObjectId_str (next_oid one_product_store) /\
    (forall doc : Document,
       In doc (collection one_product_store "product") ->
       _id doc <> next_oid one_product_store /\ ObjectId_str (_id doc) <> new_id) /\
    collection d' "product"
    = (collection one_product_store "product"
       ++ [mkDocument (next_oid one_product_store) (model_dump earbuds)])%list /\
    (forall name : string,
       name <> "product" -> collection d' name = collection one_product_store name) /\
    next_oid d' = N.succ (next_oid one_product_store).
Proof.
  apply (proj2 (post_product_effect accept_all earbuds_body earbuds one_product_store
                  eq_refl eq_refl));
    reflexivity.
Defined.

(** X7 (a body that the schema refuses).  When the body validates against
    [ProductIn] and the construction of [ProductSchema] from its dump reports
    errors, the exception is raised inside the handler: the response is a 500
    and not a 422, and nothing is inserted, whatever the store. *)
Theorem post_product_schema_rejects
    (ProductSchema : gmap string value -> list FieldError)
    (body : gmap string value) (payload : ProductIn) (w : World) :
  ProductIn_validate body = inr payload ->
  ProductSchema (model_dump payload) <> [] ->
  request (post_product ProductSchema body) w
  = (Failure 500 (DetailText "Internal Server Error"), w).
Proof.
  intros Hvalid Hschema. unfold request, post_product. rewrite Hvalid.
  unfold create_product, ProductSchema_new.
  destruct (ProductSchema (model_dump payload)); [contradiction|reflexivity].
Qed.

(** X8 (keys that [ProductIn] does not declare).  A key of the request body
    other than the six fields of [ProductIn] has no effect: the body
    validates to the same product, or fails with the same errors, as without
    the key, and the whole request does the same. *)
Theorem post_product_ignores_extra_key
    (ProductSchema : gmap string value -> list FieldError)
    (body : gmap string value) (key : string) (v : value) (w : World) :
  key ∉ ["title"; "description"; "price"; "category"; "in_stock"; "image"] ->
  ProductIn_validate (<[key := v]> body) = ProductIn_validate body /\
  request (post_product ProductSchema (<[key := v]> body)) w
  = request (post_product ProductSchema body) w.
Proof.
  intros Hkey.
  assert (Hsame : ProductIn_validate (<[key := v]> body) = ProductIn_validate body).
  { unfold ProductIn_validate, required_str, optional_str, required_float_ge0,
      bool_with_default.
    rewrite !lookup_insert_ne; [reflexivity|..];
      intros ->; apply Hkey; set_solver. }
  split; [exact Hsame|].
  unfold request, post_product. rewrite Hsame. reflexivity.
Qed.

(** ** Seeding again *)

Lemma for_each_create_others (l : list (gmap string value)) (d : Database) :
  server_up d = true ->
  exists d' : Database,
    for_each l (fun s => create_document "product" s ;;; ret tt) (Some d)
    = (Return tt, Some d') /\
    forall name : string, name <> "product" -> collection d' name = collection d name.
Proof.
  revert d. induction l as [|s l IH]; intros d Hup.
  - exists d. auto.
  - set (d1 := mkDatabase (server_up d)
                 (<["product" := (collection d "product" ++ [mkDocument (next_oid d) s])%list]>
                    (collections d))
                 (N.succ (next_oid d))).
    destruct (IH d1 Hup) as (d' & Hrun & Hothers).
    exists d'. split.
    + cbn [for_each]. unfold bind at 1. unfold bind at 1.
      rewrite (create_document_up d "product" s Hup). fold d1.
      unfold ret at 1. exact Hrun.
    + intros name Hne. rewrite (Hothers name Hne). unfold d1.
      apply collection_insert_ne. congruence.
Qed.

(** X9 (seeding is idempotent and only adds).  Running [seed_products] a
    second time changes nothing: the store after two runs is the store after
    one.  A run never removes or reorders a document of the product
    collection (what was there stays at the front) and never touches another
    collection. *)
Theorem seed_products_idempotent (w : World) :
  snd (seed_products (snd (seed_products w))) = snd (seed_products w) /\
  (forall d : Database,
     w = Some d ->
     exists (d' : Database) (added : list Document),
       snd (seed_products w) = Some d' /\
       collection d' "product" = (collection d "product" ++ added)%list /\
       forall name : string, name <> "product" -> collection d' name = collection d name).
Proof.
  split.
  - destruct w as [d|]; [|reflexivity].
    destruct (server_up d) eqn:Hup.
    + destruct (collection d "product") as [|x l] eqn:Hcoll.
      * destruct (seed_products_empty d Hup Hcoll) as (d' & Hrun & Hup' & _ & Hcoll').
        rewrite Hrun. simpl. rewrite seed_products_skip; [reflexivity|].
        right. rewrite Hcoll'. discriminate.
      * rewrite seed_products_skip by (right; congruence). simpl.
        rewrite seed_products_skip by (right; congruence). reflexivity.
    + rewrite seed_products_skip by auto. simpl.
      rewrite seed_products_skip by auto. reflexivity.
  - intros d ->.
    destruct (server_up d) eqn:Hup.
    + destruct (collection d "product") as [|x l] eqn:Hcoll.
      * destruct (for_each_create samples d Hup) as (d1 & Hrun1 & _ & _ & Hcoll1).
        destruct (for_each_create_others samples d Hup) as (d2 & Hrun2 & Hothers).
        assert (d2 = d1) by congruence. subst d2.
        exists d1, (seeded_documents (next_oid d)). split; [|split].
        -- unfold seed_products.
           rewrite (bind_Return get_db _ (Some d) (Some d) (Some d) eq_refl).
           erewrite try_except_Return; [reflexivity|].
           rewrite (bind_Return (count_documents d "product") _ (Some d) (Some d) 0).
           ++ exact Hrun1.
           ++ unfold count_documents, driver. rewrite Hup, Hcoll. reflexivity.
        -- rewrite Hcoll1, Hcoll. reflexivity.
        -- exact Hothers.
      * exists d, []. rewrite seed_products_skip by (right; congruence).
        rewrite app_nil_r. auto.
    + exists d, []. rewrite seed_products_skip by auto.
      rewrite app_nil_r. auto.
Qed.

(** ** Categories and listings together *)

Lemma list_categories_result (d : Database) :
  server_up d = true ->
  categories_are_text d = true ->
  list_categories (Some d)
  = (Return (merge_sort string_le
               (omap as_str
                  (List.filter truthy
                     (remove_dups (omap (fun doc => doc_get doc "category")
                                     (collection d "product")))))),
     Some d).
Proof.
  intros Hup Htext. rewrite (list_categories_up d Hup).
  unfold sorted_strs. rewrite (category_values_text d Htext). reflexivity.
Qed.

Lemma elem_of_category_values (d : Database) (c : string) :
  c ∈ merge_sort string_le
        (omap as_str
           (List.filter truthy
              (remove_dups (omap (fun doc => doc_get doc "category")
                              (collection d "product"))))) ->
  c <> EmptyString /\
  exists doc : Document,
    In doc (collection d "product") /\ doc_get doc "category" = Some (VStr c).
Proof.
  rewrite merge_sort_Permutation, list_elem_of_omap.
  intros (v & Hv & Hs). apply as_str_Some in Hs. subst v.
  apply elem_of_filter_bool in Hv as [Hv Htruthy].
  apply elem_of_remove_dups, list_elem_of_omap in Hv as (doc & Hin & Hget).
  split.
  - intros ->. discriminate Htruthy.
  - exists doc. split; [apply list_elem_of_In, Hin|exact Hget].
Qed.

(** X10 (a listed category selects products).  On a store that answers and
    whose documents have the product shape, every category that
    [GET /api/categories] returns can be given to [GET /api/products] as
    [category]: the listing is then not empty and each of its products has
    exactly that category. *)
Theorem category_selects_products
    (regex_search : string -> string -> string -> bool)
    (regex_valid : string -> string -> bool)
    (d : Database) (cats : list string) (c : string) :
  server_up d = true ->
  products_shaped d = true ->
  request list_categories (Some d) = (Success cats, Some d) ->
  In c cats ->
  exists outs : list ProductOut,
    request (list_products regex_search regex_valid None (Some c) None None) (Some d)
    = (Success outs, Some d) /\
    outs <> [] /\
    Forall (fun p : ProductOut => category p = c) outs.
Proof.
  intros Hup Hshape Hcats Hc.
  unfold request in Hcats.
  rewrite (list_categories_result d Hup (products_shaped_categories d Hshape)) in Hcats.
  injection Hcats as <-.
  apply list_elem_of_In, elem_of_category_values in Hc as (Hne & doc & Hin & Hget).
  assert (Hmatch : forall x : Document,
            doc_matches regex_search (list_products_filter None (Some c) None None) x
            = category_is c x).
  { intros x. rewrite doc_matches_list_products_filter. simpl.
    destruct (String.eqb_spec c EmptyString) as [->|_]; [contradiction|].
    simpl. rewrite !andb_true_r. reflexivity. }
  eexists. split; [|split].
  - unfold request.
    rewrite (list_products_shaped regex_search regex_valid None (Some c) None None
               d Hup Hshape eq_refl).
    reflexivity.
  - assert (Hp : In (to_product doc)
                   (map to_product
                      (List.filter
                         (doc_matches regex_search
                            (list_products_filter None (Some c) None None))
                         (collection d "product")))).
    { apply in_map, filter_In. split; [exact Hin|].
      rewrite Hmatch. unfold category_is. rewrite Hget. simpl.
      apply String.eqb_refl. }
    intros Hnil. rewrite Hnil in Hp. destruct Hp.
  - apply List.Forall_forall. intros p Hp.
    apply in_map_iff in Hp as (x & <- & Hx).
    apply filter_In in Hx as [_ Hx]. rewrite Hmatch in Hx.
    unfold category_is in Hx. unfold to_product. simpl.
    destruct (doc_get x "category") as [[| | |c']|]; try discriminate.
    simpl in Hx |- *. apply String.eqb_eq, Hx.
Qed.

Lemma find_unique_id (l : list Document) (doc : Document) :
  NoDup (map _id l) ->
  In doc l ->
  List.find (fun x => N.eqb (_id x) (_id doc)) l = Some doc.
Proof.
  induction l as [|x l IH]; intros Hnd Hin; [destruct Hin|].
  simpl in Hnd. apply NoDup_cons in Hnd as [Hx Hnd]. simpl.
  destruct Hin as [->|Hin].
  - rewrite N.eqb_refl. reflexivity.
  - destruct (N.eqb_spec (_id x) (_id doc)) as [E|_]; [|exact (IH Hnd Hin)].
    exfalso. apply Hx. rewrite E. apply list_elem_of_In, in_map, Hin.
Qed.

Lemma find_binary_eqb (bs : list N) (o : ObjectId) (l : list Document) :
  length bs = 12 ->
  binary_value bs = o ->
  List.find (fun doc => binary_is bs (_id doc)) l
  = List.find (fun doc => N.eqb (_id doc) o) l.
Proof.
  intros Hlen Hval. induction l as [|doc l IH]; simpl; [reflexivity|].
  rewrite IH, (binary_is_eqb bs o (_id doc) Hlen Hval). reflexivity.
Qed.

(** X11 (a listed product can be fetched).  On a store that answers, whose
    documents have the product shape and whose identifiers are fresh and
    pairwise distinct, every product that [GET /api/products] returns, with
    any parameters, is returned unchanged by [GET /api/products/{id}] with
    its own [id]. *)
Theorem listed_product_fetchable
    (regex_search : string -> string -> string -> bool)
    (regex_valid : string -> string -> bool)
    (q cat : option string) (min_price max_price : option Q)
    (d : Database) (outs : list ProductOut) (p : ProductOut) :
  server_up d = true ->
  products_shaped d = true ->
  ids_fresh d = true ->
  ids_distinct d ->
  request (list_products regex_search regex_valid q cat min_price max_price) (Some d)
  = (Success outs, Some d) ->
  In p outs ->
  request (get_product regex_search (id p)) (Some d) = (Success p, Some d).
Proof.
  intros Hup Hshape Hfresh Hdistinct Hlist Hp.
  destruct (pattern_accepted regex_valid q) eqn:Hpat.
  2: { rewrite (list_products_refused _ _ _ _ _ _ _ Hup Hpat) in Hlist.
       discriminate. }
  unfold request in Hlist.
  rewrite (list_products_shaped _ _ _ _ _ _ _ Hup Hshape Hpat) in Hlist.
  injection Hlist as <-.
  apply in_map_iff in Hp as (doc & <- & Hin). apply filter_In in Hin as [Hin _].
  apply andb_prop in Hfresh as [Hbelow Hbound]. apply N.ltb_lt in Hbound.
  unfold ids_below in Hbelow. rewrite forallb_forall in Hbelow.
  pose proof (Hbelow doc Hin) as Hlt. apply N.ltb_lt in Hlt.
  destruct (ObjectId_parse_str (_id doc)) as (bs & Hparse & Hlen & Hval); [lia|].
  unfold request. change (id (to_product doc)) with (ObjectId_str (_id doc)).
  rewrite (get_product_find regex_search d _ bs Hup Hparse).
  rewrite (find_binary_eqb bs (_id doc) _ Hlen Hval).
  rewrite (find_unique_id _ doc Hdistinct Hin).
  rewrite serialize_product_to_product; [reflexivity|].
  unfold products_shaped in Hshape. rewrite forallb_forall in Hshape. auto.
Qed.

(** ** Fetching from a store that fails *)

(** X12 (a failing store and the single-product endpoint).  When the store
    is configured and its call raises, [GET /api/products/{id}] answers 500
    for an id that parses, and not 503, which it keeps for a missing store;
    an id that does not parse is answered 400 all the same, since the id is
    parsed before the store is called.  So an id that has not 24 characters
    is answered 400, and the string form of an identifier 500.  The store is
    left as it was. *)
Theorem get_product_store_error
    (regex_search : string -> string -> string -> bool) (product_id : string)
    (colls : gmap string (list Document)) (n : ObjectId) :
  request (get_product regex_search product_id) (Some (mkDatabase false colls n))
  = (match ObjectId_parse product_id with
     | Some _ => Failure 500 (DetailText "Internal Server Error")
     | None => Failure 400 (DetailText "Invalid product id")
     end, Some (mkDatabase false colls n)) /\
  (String.length product_id <> 24 ->
   request (get_product regex_search product_id) (Some (mkDatabase false colls n))
   = (Failure 400 (DetailText "Invalid product id"), Some (mkDatabase false colls n))) /\
  (forall o : ObjectId,
     (o < oid_bound)%N ->
     request (get_product regex_search (ObjectId_str o)) (Some (mkDatabase false colls n))
     = (Failure 500 (DetailText "Internal Server Error"),
        Some (mkDatabase false colls n))).
Proof.
  split; [|split].
  - unfold request, get_product, bind, get_db.
    destruct (ObjectId_parse product_id); reflexivity.
  - intros Hlen. unfold request.
    rewrite (get_product_invalid regex_search _ product_id
               (ObjectId_parse_length product_id Hlen)).
    reflexivity.
  - intros o Ho. destruct (ObjectId_parse_str o Ho) as (bs & Hparse & _).
    unfold request.
    rewrite (get_product_down regex_search (mkDatabase false colls n)
               (ObjectId_str o) bs eq_refl Hparse).
    reflexivity.
Qed.

(** ** Categories that are not strings *)

(** X13 (a category that is not a string).  On a store that answers, a
    single document whose category is a truthy value other than a string (a
    number that is not zero, or [True]) makes [GET /api/categories] fail with
    a 500, whatever the other documents are; the store is left as it was. *)
Theorem list_categories_non_string (d : Database) (doc : Document) (v : value) :
  server_up d = true ->
  In doc (collection d "product") ->
  doc_get doc "category" = Some v ->
  truthy v = true ->
  is_str v = false ->
  request list_categories (Some d)
  = (Failure 500 (DetailText "Internal Server Error"), Some d).
Proof.
  intros Hup Hin Hget Htruthy Hstr. unfold request.
  rewrite (list_categories_up d Hup). unfold sorted_strs.
  rewrite (forallb_false_In is_str _ v).
  - destruct (existsb is_str _); reflexivity.
  - apply filter_In. split; [|exact Htruthy].
    apply list_elem_of_In, elem_of_remove_dups, list_elem_of_omap.
    exists doc. split; [apply list_elem_of_In, Hin|exact Hget].
  - exact Hstr.
Qed.

Lemma list_categories_non_string_witness :
  request list_categories (Some numbered_store)
  = (Failure 500 (DetailText "Internal Server Error"), Some numbered_store).
Proof.
  apply (list_categories_non_string numbered_store numbered_document (VNum 3)).
  - reflexivity.
  - right. left. reflexivity.
  - reflexivity.
  - reflexivity.
  - reflexivity.
Defined.

(** ** The diagnostic endpoint *)

Lemma utf8_length_take (n : nat) (s : string) :
  utf8_length (utf8_take n s) = Nat.min n (utf8_length s).
Proof.
  revert n. induction s as [|c s IH]; intros n; simpl; [lia|].
  destruct (is_continuation c) eqn:E.
  - simpl. rewrite E. apply IH.
  - destruct n as [|n]; simpl; [lia|]. rewrite E. specialize (IH n). lia.
Qed.

(** A string of no more than [n] characters is its own first [n]
    characters. *)
Lemma utf8_take_all (n : nat) (s : string) :
  utf8_length s <= n -> utf8_take n s = s.
Proof.
  revert n. induction s as [|c s IH]; intros n; simpl; [reflexivity|].
  destruct (is_continuation c).
  - intros H. rewrite IH by exact H. reflexivity.
  - destruct n as [|n]; [lia|]. intros H. rewrite IH by lia. reflexivity.
Qed.

Section DiagnosticsFacts.

Variable environ : gmap string string.
Variable exn_str : exn -> string.
Variable db_name : string.

Lemma test_database_unconfigured :
  test_database environ exn_str db_name None
  = (Return
       (<["database_name" :=
            DStr (if truthy_str (getenv environ "DATABASE_NAME")
                  then "✅ Set" else "❌ Not Set")]>
          (<["database_url" :=
               DStr (if truthy_str (getenv environ "DATABASE_URL")
                     then "✅ Set" else "❌ Not Set")]>
             (<["database" := DStr "⚠️  Available but not initialized"]>
                initial_response))),
     None).
Proof. reflexivity. Qed.

Lemma test_database_answering (d : Database) :
  server_up d = true ->
  test_database environ exn_str db_name (Some d)
  = (Return
       (<["database_name" :=
            DStr (if truthy_str (getenv environ "DATABASE_NAME")
                  then "✅ Set" else "❌ Not Set")]>
          (<["database_url" :=
               DStr (if truthy_str (getenv environ "DATABASE_URL")
                     then "✅ Set" else "❌ Not Set")]>
             (<["database" := DStr "✅ Connected & Working"]>
                (<["collections" := DList (take 10 (map fst (map_to_list (collections d))))]>
                   (<["connection_status" := DStr "Connected"]>
                      (<["database_name" := DStr db_name]>
                         (<["database_url" := DStr "✅ Configured"]>
                            (<["database" := DStr "✅ Available"]>
                               initial_response)))))))),
     Some d).
Proof.
  intros Hup.
  unfold test_database, t_try, t_bind, set_item, t_call, list_collection_names, driver.
  rewrite Hup. reflexivity.
Qed.

Lemma test_database_failing (d : Database) :
  server_up d = false ->
  test_database environ exn_str db_name (Some d)
  = (Return
       (<["database_name" :=
            DStr (if truthy_str (getenv environ "DATABASE_NAME")
                  then "✅ Set" else "❌ Not Set")]>
          (<["database_url" :=
               DStr (if truthy_str (getenv environ "DATABASE_URL")
                     then "✅ Set" else "❌ Not Set")]>
             (<["database" :=
                  DStr ("⚠️  Connected but Error: " ++ first_50 exn_str PyMongoError)]>
                (<["connection_status" := DStr "Connected"]>
                   (<["database_name" := DStr db_name]>
                      (<["database_url" := DStr "✅ Configured"]>
                         (<["database" := DStr "✅ Available"]>
                            initial_response))))))),
     Some d).
Proof.
  intros Hup.
  unfold test_database, t_try, t_bind, set_item, t_call, list_collection_names, driver.
  rewrite Hup. reflexivity.
Qed.

End DiagnosticsFacts.

Lemma prefix_utf8_take (n : nat) (s : string) :
  String.prefix (utf8_take n s) s = true.
Proof.
  revert n. induction s as [|c s IH]; intros n; simpl; [reflexivity|].
  destruct (is_continuation c).
  - simpl. destruct (ascii_dec c c) as [_|Hne]; [apply IH|contradiction].
  - destruct n as [|n]; simpl; [reflexivity|].
    destruct (ascii_dec c c) as [_|Hne]; [apply IH|contradiction].
Qed.

Lemma initial_response_dom :
  dom initial_response
  = (list_to_set [ "backend"; "database"; "database_url"; "database_name";
                   "connection_status"; "collections" ] : gset string).
Proof.
  unfold initial_response. rewrite !dom_insert_L, dom_singleton_L. set_solver.
Qed.

(** X14 (the diagnostic endpoint always answers).  For every environment
    and every store, [GET /test] returns a response, never an error, and
    leaves the store as it was.  The response has exactly the six keys
    backend, database, database_url, database_name, connection_status and
    collections.  Its [database_url] and [database_name] only tell whether
    the environment variables [DATABASE_URL] and [DATABASE_NAME] are set to a
    non-empty text: what the handler wrote there before, the name of the
    database included, never reaches the response. *)
Theorem test_database_always_answers
    (environ : gmap string string) (exn_str : exn -> string) (db_name : string)
    (w : World) :
  exists r : gmap string diag_value,
    request (test_database environ exn_str db_name) w = (Success r, w) /\
    dom r = (list_to_set [ "backend"; "database"; "database_url"; "database_name";
                           "connection_status"; "collections" ] : gset string) /\
    r !! "backend" = Some (DStr "✅ Running") /\
    r !! "database_url"
    = Some (DStr (if truthy_str (environ !! "DATABASE_URL")
                  then "✅ Set" else "❌ Not Set")) /\
    r !! "database_name"
    = Some (DStr (if truthy_str (environ !! "DATABASE_NAME")
                  then "✅ Set" else "❌ Not Set")).
Proof.
  unfold request.
  destruct w as [d|]; [destruct (server_up d) eqn:Hup|].
  - rewrite (test_database_answering environ exn_str db_name d Hup).
    eexists. split; [reflexivity|]. split; [|repeat split].
    rewrite !dom_insert_L, initial_response_dom. set_solver.
  - rewrite (test_database_failing environ exn_str db_name d Hup).
    eexists. split; [reflexivity|]. split; [|repeat split].
    rewrite !dom_insert_L, initial_response_dom. set_solver.
  - rewrite test_database_unconfigured.
    eexists. split; [reflexivity|]. split; [|repeat split].
    rewrite !dom_insert_L, initial_response_dom. set_solver.
Qed.

(** X15 (what the diagnostic endpoint reports of a configured store).  With
    a store configured, [connection_status] is Connected whether or not the
    store answers.  When it answers, [database] says so and [collections]
    lists at most ten names, without repetition, each the name of a
    collection of the database, and all of them when there are no more than
    ten.  When the call raises, [collections] stays empty and [database] is
    the warning followed by the first fifty characters of the text of the
    exception, or by the whole text when it has no more than fifty. *)
Theorem test_database_configured
    (environ : gmap string string) (exn_str : exn -> string) (db_name : string)
    (d : Database) :
  exists (r : gmap string diag_value) (names : list string),
    fst (request (test_database environ exn_str db_name) (Some d)) = Success r /\
    r !! "connection_status" = Some (DStr "Connected") /\
    r !! "collections" = Some (DList names) /\
    length names <= 10 /\
    NoDup names /\
    (forall n : string, n ∈ names -> is_Some (collections d !! n)) /\
    (server_up d = true ->
     r !! "database" = Some (DStr "✅ Connected & Working") /\
     (size (collections d) <= 10 ->
      forall n : string, is_Some (collections d !! n) -> n ∈ names)) /\
    (server_up d = false ->
     names = [] /\
     exists msg : string,
       r !! "database" = Some (DStr ("⚠️  Connected but Error: " ++ msg)) /\
       utf8_length msg = Nat.min 50 (utf8_length (exn_str PyMongoError)) /\
       String.prefix msg (exn_str PyMongoError) = true /\
       (utf8_length (exn_str PyMongoError) <= 50 -> msg = exn_str PyMongoError)).
Proof.
  unfold request. destruct (server_up d) eqn:Hup.
  - rewrite (test_database_answering environ exn_str db_name d Hup).
    set (all := map fst (map_to_list (collections d))).
    assert (Hnodup : NoDup all) by apply NoDup_fst_map_to_list.
    assert (Hall : forall n, n ∈ all <-> is_Some (collections d !! n)).
    { intros n. unfold all. change (map fst) with (fmap (M := list) (@fst string (list Document))).
      rewrite list_elem_of_fmap. split.
      - intros ([k l] & -> & Hin). apply elem_of_map_to_list in Hin. simpl. eauto.
      - intros [l Hl]. exists (n, l). split; [reflexivity|].
        apply elem_of_map_to_list, Hl. }
    eexists. exists (take 10 all). split; [reflexivity|].
    split; [reflexivity|]. split; [reflexivity|].
    split; [rewrite length_take; lia|].
    split; [exact (sublist_NoDup _ _ Hnodup (sublist_take all 10))|].
    split; [|split; [|discriminate]].
    + intros n Hn. apply Hall. exact (subseteq_take 10 all n Hn).
    + intros _. split; [reflexivity|].
      intros Hsize n Hn. rewrite take_ge.
      * apply Hall, Hn.
      * unfold all. rewrite length_map, length_map_to_list. exact Hsize.
  - rewrite (test_database_failing environ exn_str db_name d Hup).
    eexists. exists []. split; [reflexivity|].
    split; [reflexivity|]. split; [reflexivity|].
    split; [simpl; lia|]. split; [constructor|].
    split; [intros n Hn; inversion Hn|].
    split; [discriminate|]. intros _. split; [reflexivity|].
    exists (first_50 exn_str PyMongoError). split; [reflexivity|].
    split; [apply utf8_length_take|]. split; [apply prefix_utf8_take|].
    apply utf8_take_all.
Qed.

(** ** The further properties at concrete inputs *)

Lemma list_products_bad_document_witness :
  (exists errs : list FieldError,
     serialize_product untitled_document (Some broken_store)
     = (Raise (ValidationError errs), Some broken_store)) /\
  request (list_products substring_search substring_valid None (Some "Audio") None None)
    (Some broken_store)
  = (Failure 500 (DetailText "Internal Server Error"), Some broken_store).
Proof.
  apply (list_products_bad_document substring_search substring_valid
           None (Some "Audio") None None broken_store untitled_document).
  - reflexivity.
  - right. left. reflexivity.
  - reflexivity.
  - reflexivity.
Defined.

Lemma list_products_selects_witness :
  (exists everything : list ProductOut,
     request (list_products substring_search refuses_plus None None None None)
       (Some two_category_store)
     = (Success everything, Some two_category_store) /\
     request (list_products substring_search refuses_plus
                (Some "bud") (Some "Audio") (Some 10%Q) None)
       (Some two_category_store)
     = (Success (List.filter
                   (product_matches substring_search (Some "bud") (Some "Audio")
                      (Some 10%Q) None)
                   everything), Some two_category_store) /\
     length everything = length (collection two_category_store "product")) /\
  (exists everything : list ProductOut,
     request (list_products substring_search refuses_plus None None None None)
       (Some two_category_store)
     = (Success everything, Some two_category_store) /\
     request (list_products substring_search refuses_plus
                (Some "+") (Some "Audio") (Some 10%Q) None)
       (Some two_category_store)
     = (Failure 500 (DetailText "Internal Server Error"), Some two_category_store) /\
     length everything = length (collection two_category_store "product")).
Proof.
  split.
  - apply (list_products_selects substring_search refuses_plus
             (Some "bud") (Some "Audio") (Some 10%Q) None two_category_store);
      reflexivity.
  - apply (list_products_selects substring_search refuses_plus
             (Some "+") (Some "Audio") (Some 10%Q) None two_category_store);
      reflexivity.
Defined.

Lemma post_product_schema_rejects_witness :
  request (post_product reject_all earbuds_body) (Some empty_store)
  = (Failure 500 (DetailText "Internal Server Error"), Some empty_store).
Proof.
  apply (post_product_schema_rejects reject_all earbuds_body earbuds (Some empty_store)).
  - reflexivity.
  - discriminate.
Defined.

Lemma post_product_ignores_extra_key_witness :
  ProductIn_validate (<["rating" := VNum 5]> earbuds_body) = ProductIn_validate earbuds_body /\
  request (post_product accept_all (<["rating" := VNum 5]> earbuds_body)) (Some empty_store)
  = request (post_product accept_all earbuds_body) (Some empty_store).
Proof.
  apply (post_product_ignores_extra_key accept_all earbuds_body "rating" (VNum 5)
           (Some empty_store)).
  apply (bool_decide_unpack _). reflexivity.
Defined.

Lemma category_selects_products_witness :
  exists outs : list ProductOut,
    request (list_products substring_search substring_valid None (Some "Audio") None None)
      (Some two_category_store)
    = (Success outs, Some two_category_store) /\
    outs <> [] /\
    Forall (fun p : ProductOut => category p = "Audio") outs.
Proof.
  apply (category_selects_products substring_search substring_valid
           two_category_store ["Audio"; "TVs"] "Audio").
  - reflexivity.
  - reflexivity.
  - reflexivity.
  - left. reflexivity.
Defined.

Lemma listed_product_fetchable_witness :
  request (get_product substring_search (id (to_product headphones))) (Some one_product_store)
  = (Success (to_product headphones), Some one_product_store).
Proof.
  apply (listed_product_fetchable substring_search substring_valid
           None None None None one_product_store
           [to_product headphones] (to_product headphones)).
  - reflexivity.
  - reflexivity.
  - reflexivity.
  - apply (bool_decide_unpack _). reflexivity.
  - reflexivity.
  - left. reflexivity.
Defined.

(** ** Creating, then listing *)

(** X16 (a created product shows up last).  On a store that answers and
    whose documents have the product shape, after a successful
    [POST /api/products] the listing without parameters is the listing from
    before followed by the new product, which carries the returned identifier
    and the validated fields of the body. *)
Theorem post_product_then_list
    (regex_search : string -> string -> string -> bool)
    (regex_valid : string -> string -> bool)
    (ProductSchema : gmap string value -> list FieldError)
    (body : gmap string value) (payload : ProductIn) (d : Database) :
  ProductIn_validate body = inr payload ->
  ProductSchema (model_dump payload) = [] ->
  server_up d = true ->
  products_shaped d = true ->
  exists (before : list ProductOut) (new_id : string) (d' : Database),
    request (list_products regex_search regex_valid None None None None) (Some d)
    = (Success before, Some d) /\
    request (post_product ProductSchema body) (Some d) = (Success new_id, Some d') /\
    request (list_products regex_search regex_valid None None None None) (Some d')
    = (Success (before ++ [mkProductOut new_id payload])%list, Some d').
Proof.
  intros Hvalid Hschema Hup Hshape.
  pose proof (ProductIn_validate_fields _ _ Hvalid) as (_ & _ & _ & Hge & _).
  pose proof (ProductIn_validate_price _ _ Hvalid) as Hdbl.
  set (doc := mkDocument (next_oid d) (model_dump payload)).
  set (d' := mkDatabase (server_up d)
               (<["product" := (collection d "product" ++ [doc])%list]> (collections d))
               (N.succ (next_oid d))).
  assert (Hdoc : product_shaped doc = true) by (apply product_shaped_model_dump, Hge).
  assert (Hshape' : products_shaped d' = true).
  { unfold products_shaped, d'. rewrite collection_insert, forallb_app.
    unfold products_shaped in Hshape. rewrite Hshape. simpl. rewrite Hdoc. reflexivity. }
  assert (Hnew : to_product doc = mkProductOut (ObjectId_str (next_oid d)) payload).
  { pose proof (serialize_product_to_product doc None Hdoc) as H1.
    unfold doc in H1 at 1.
    rewrite (serialize_product_model_dump (next_oid d) payload None Hge Hdbl) in H1.
    congruence. }
  exists (map to_product (collection d "product")), (ObjectId_str (next_oid d)), d'.
  split; [|split].
  - apply list_products_all; assumption.
  - unfold request, post_product. rewrite Hvalid.
    unfold create_product, ProductSchema_new. rewrite Hschema.
    rewrite (bind_Return (ret tt) _ (Some d) (Some d) tt eq_refl).
    rewrite (bind_Return _ _ _ _ _ (create_document_up d "product" _ Hup)).
    reflexivity.
  - rewrite (list_products_all regex_search regex_valid d' Hup Hshape').
    unfold d' at 1. rewrite collection_insert, map_app. simpl. rewrite Hnew.
    reflexivity.
Qed.

Lemma post_product_then_list_witness :
  exists (before : list ProductOut) (new_id : string) (d' : Database),
    request (list_products substring_search substring_valid None None None None)
      (Some one_product_store)
    = (Success before, Some one_product_store) /\
    request (post_product accept_all earbuds_body) (Some one_product_store)
    = (Success new_id, Some d') /\
    request (list_products substring_search substring_valid None None None None) (Some d')
    = (Success (before ++ [mkProductOut new_id earbuds])%list, Some d').
Proof.
  apply (post_product_then_list substring_search substring_valid accept_all
           earbuds_body earbuds one_product_store);
    reflexivity.
Defined.

(** ** The errors of a request body *)

Lemma errors_of_sublist {A} (c : checked A) (key : string) (rest names : list string) :
  (forall e, c = Invalid e -> fst e = key) ->
  rest `sublist_of` names ->
  (map fst (errors_of c) ++ rest)%list `sublist_of` key :: names.
Proof.
  intros Hkey Hrest. destruct c as [a|e]; simpl.
  - apply sublist_cons, Hrest.
  - rewrite (Hkey e eq_refl). apply sublist_skip, Hrest.
Qed.

Lemma required_str_key key kw e : required_str key kw = Invalid e -> fst e = key.
Proof. unfold required_str. destruct (kw !! key) as [[]|]; intros [= <-]; reflexivity. Qed.

Lemma optional_str_key key kw e : optional_str key kw = Invalid e -> fst e = key.
Proof. unfold optional_str. destruct (kw !! key) as [[]|]; intros [= <-]; reflexivity. Qed.

Lemma required_float_ge0_key key kw e :
  required_float_ge0 key kw = Invalid e -> fst e = key.
Proof.
  unfold required_float_ge0.
  destruct (kw !! key) as [[| |q|]|]; try (intros [= <-]; reflexivity).
  destruct (Qle_bool 0 (to_double q)); intros [= <-]; reflexivity.
Qed.

Lemma bool_with_default_key key dflt kw e :
  bool_with_default key dflt kw = Invalid e -> fst e = key.
Proof.
  unfold bool_with_default. destruct (kw !! key) as [[]|]; intros [= <-]; reflexivity.
Qed.

(** X17 (the errors of a refused body).  For a request body in which
    nothing calls for a conversion (its price, if any, is a number within
    the range of a double or null, and its in_stock, if any, a boolean or
    null): when the validation against [ProductIn] fails, the list of errors
    is not empty and names declared fields only, each at most once and in
    the order in which the class declares them; the response of
    [POST /api/products] is then the 422 that carries this list, and the
    store is untouched. *)
Theorem ProductIn_errors_in_field_order
    (ProductSchema : gmap string value -> list FieldError)
    (body : gmap string value) (errs : list FieldError) (w : World) :
  plain_body body = true ->
  ProductIn_validate body = inl errs ->
  errs <> [] /\
  map fst errs `sublist_of`
    ["title"; "description"; "price"; "category"; "in_stock"; "image"] /\
  request (post_product ProductSchema body) w = (Failure 422 (DetailFields errs), w).
Proof.
  intros _ Herrs. split; [|split].
  - unfold ProductIn_validate in Herrs.
    destruct (required_str "title" body), (optional_str "description" body),
      (required_float_ge0 "price" body), (required_str "category" body),
      (bool_with_default "in_stock" true body), (optional_str "image" body);
      try discriminate Herrs; injection Herrs as <-; simpl; discriminate.
  - assert (Hall : errs
                   = (errors_of (required_str "title" body)
                      ++ errors_of (optional_str "description" body)
                      ++ errors_of (required_float_ge0 "price" body)
                      ++ errors_of (required_str "category" body)
                      ++ errors_of (bool_with_default "in_stock" true body)
                      ++ errors_of (optional_str "image" body))%list).
    { unfold ProductIn_validate in Herrs.
      destruct (required_str "title" body), (optional_str "description" body),
        (required_float_ge0 "price" body), (required_str "category" body),
        (bool_with_default "in_stock" true body), (optional_str "image" body);
        try discriminate Herrs; injection Herrs as <-; reflexivity. }
    rewrite Hall, !map_app.
    apply errors_of_sublist; [apply required_str_key|].
    apply errors_of_sublist; [apply optional_str_key|].
    apply errors_of_sublist; [apply required_float_ge0_key|].
    apply errors_of_sublist; [apply required_str_key|].
    apply errors_of_sublist; [apply bool_with_default_key|].
    destruct (optional_str "image" body) as [i|e] eqn:E; simpl.
    + apply sublist_nil_l.
    + rewrite (optional_str_key _ _ _ E). reflexivity.
  - unfold request, post_product. rewrite Herrs. reflexivity.
Qed.

Lemma ProductIn_errors_in_field_order_witness :
  [("title", "missing"); ("price", "missing"); ("category", "missing")] <> [] /\
  map fst [("title", "missing"); ("price", "missing"); ("category", "missing")]
    `sublist_of` ["title"; "description"; "price"; "category"; "in_stock"; "image"] /\
  request (post_product accept_all ∅) (Some empty_store)
  = (Failure 422
       (DetailFields [("title", "missing"); ("price", "missing"); ("category", "missing")]),
     Some empty_store).
Proof.
  apply (ProductIn_errors_in_field_order accept_all ∅
           [("title", "missing"); ("price", "missing"); ("category", "missing")]
           (Some empty_store));
    reflexivity.
Defined.

(** ** Title and category in [ProductIn] *)

(** X18 (what [ProductIn] alone makes of title and category).  The
    validation of a request body against [ProductIn] accepts title and
    category whenever they are strings, the empty string included, the other
    fields being plain and valid.  It fails with a list of field errors in
    the order of the fields: the first entry names [title] when the title is
    missing or not a string, and [category] when the fields before it are
    valid and the category is missing or not a string. *)
Theorem ProductIn_title_category (body : gmap string value) :
  (forall (t c : string) (q : Q),
     body !! "title" = Some (VStr t) ->
     body !! "category" = Some (VStr c) ->
     body !! "price" = Some (VNum q) ->
     Qle_bool 0 q = true ->
     in_double_range q = true ->
     text_or_absent (body !! "description") = true ->
     bool_or_absent (body !! "in_stock") = true ->
     text_or_absent (body !! "image") = true ->
     exists p : ProductIn,
       ProductIn_validate body = inr p /\ title p = t /\ category p = c) /\
  (is_text (body !! "title") = false ->
   exists (ty : string) (rest : list FieldError),
     ProductIn_validate body = inl (("title", ty) :: rest)) /\
  (forall (q : Q),
     is_text (body !! "title") = true ->
     text_or_absent (body !! "description") = true ->
     body !! "price" = Some (VNum q) ->
     Qle_bool 0 q = true ->
     in_double_range q = true ->
     is_text (body !! "category") = false ->
     exists (ty : string) (rest : list FieldError),
       ProductIn_validate body = inl (("category", ty) :: rest)).
Proof.
  split; [|split].
  - intros t c q Ht Hc Hq Hge _ Hd Hs Hi.
    destruct (ProductIn_validate_plain body t c q Ht Hd Hq Hge Hc Hs Hi)
      as (p & Hp & Htp & _ & Hcp).
    exists p. auto.
  - intros Ht.
    destruct (required_str_Invalid "title" body Ht) as [ty Hty].
    unfold ProductIn_validate. rewrite Hty.
    destruct (optional_str "description" body),
      (required_float_ge0 "price" body), (required_str "category" body),
      (bool_with_default "in_stock" true body), (optional_str "image" body);
      do 2 eexists; reflexivity.
  - intros q Ht Hd Hq Hge _ Hc.
    destruct (required_str_text "title" body Ht) as [t Htitle].
    destruct (optional_str_text "description" body Hd) as [d Hdesc].
    destruct (required_str_Invalid "category" body Hc) as [ty Hty].
    assert (Hprice : required_float_ge0 "price" body = Valid (to_double q)).
    { apply required_float_ge0_Valid. exists q. repeat split; auto.
      rewrite to_double_nonneg. exact Hge. }
    unfold ProductIn_validate. rewrite Htitle, Hdesc, Hprice, Hty.
    destruct (bool_with_default "in_stock" true body),
      (optional_str "image" body);
      do 2 eexists; reflexivity.
Qed.

Lemma ProductIn_title_category_witness :
  (exists p : ProductIn,
     ProductIn_validate blank_body = inr p
     /\ title p = EmptyString /\ category p = EmptyString) /\
  (exists (ty : string) (rest : list FieldError),
     ProductIn_validate (<["title" := VNum 7]> blank_body)
     = inl (("title", ty) :: rest)) /\
  (exists (ty : string) (rest : list FieldError),
     ProductIn_validate (<["category" := VNone]> blank_body)
     = inl (("category", ty) :: rest)).
Proof.
  split; [|split].
  - apply (proj1 (ProductIn_title_category blank_body) EmptyString EmptyString 1%Q);
      reflexivity.
  - apply (proj1 (proj2 (ProductIn_title_category (<["title" := VNum 7]> blank_body)))).
    reflexivity.
  - apply (proj2 (proj2 (ProductIn_title_category (<["category" := VNone]> blank_body)))
             1%Q);
      reflexivity.
Defined.

(** ** Stored prices are doubles *)

(** X19 (the writers store doubles).  [POST /api/products] stores the price
    that validation converted to a double, and the seeding stores its four
    literals, which are doubles: on a configured store whose prices are
    doubles, the store that either of them leaves has prices that are
    doubles. *)
Theorem writers_keep_doubles
    (ProductSchema : gmap string value -> list FieldError)
    (body : gmap string value) (d : Database) :
  prices_are_doubles d = true ->
  (exists d' : Database,
     snd (request (post_product ProductSchema body) (Some d)) = Some d' /\
     prices_are_doubles d' = true) /\
  (exists d' : Database,
     seed_products (Some d) = (Return tt, Some d') /\
     prices_are_doubles d' = true).
Proof.
  intros Hdbl. split.
  - unfold request, post_product.
    destruct (ProductIn_validate body) as [errs|payload] eqn:Hvalid.
    { exists d. auto. }
    pose proof (ProductIn_validate_fields _ _ Hvalid) as (_ & _ & (q & _ & Hq) & _).
    unfold create_product, ProductSchema_new.
    destruct (ProductSchema (model_dump payload)) as [|e errs].
    2: { exists d. auto. }
    destruct (server_up d) eqn:Hup.
    + rewrite (bind_Return (ret tt) _ (Some d) (Some d) tt eq_refl).
      rewrite (bind_Return _ _ _ _ _ (create_document_up d "product" _ Hup)).
      eexists. split; [reflexivity|].
      unfold prices_are_doubles. rewrite collection_insert, forallb_app.
      unfold prices_are_doubles in Hdbl. rewrite Hdbl. cbn [forallb andb].
      change (doc_get (mkDocument (next_oid d) (model_dump payload)) "price")
        with (Some (VNum (price payload))).
      cbv beta iota. rewrite Hq, is_double_to_double. reflexivity.
    + exists d. split; [|exact Hdbl].
      unfold bind, ret, create_document, bind, get_db, insert_one. rewrite Hup.
      reflexivity.
  - destruct (server_up d) eqn:Hup.
    + destruct (collection d "product") as [|x l] eqn:Hcoll.
      * destruct (seed_products_empty d Hup Hcoll) as (d' & Hrun & _ & _ & Hcoll').
        exists d'. split; [exact Hrun|].
        unfold prices_are_doubles. rewrite Hcoll'. reflexivity.
      * exists d. split; [|exact Hdbl]. apply seed_products_skip. right. congruence.
    + exists d. split; [|exact Hdbl]. apply seed_products_skip. auto.
Qed.

Lemma writers_keep_doubles_witness :
  (exists d' : Database,
     snd (request (post_product accept_all odd_price_body) (Some one_product_store))
     = Some d' /\
     prices_are_doubles d' = true) /\
  (exists d' : Database,
     seed_products (Some one_product_store) = (Return tt, Some d') /\
     prices_are_doubles d' = true).
Proof.
  apply (writers_keep_doubles accept_all odd_price_body one_product_store).
  reflexivity.
Defined.
